(** * simple_mcp_server.py: dispatch and tool execution of the MCP server

    A shallow embedding of [SimpleMCPServer] and of [main] from
    [simple_mcp_server.py].  Python values that travel through the server are
    the values [json.loads] builds; dictionaries keep their insertion order and
    are association lists.  The code is effectful (standard streams, HTTP calls,
    exceptions), so it is written in a state monad whose results are either a
    value or a raised exception; the state survives a raise, as it does in
    Python. *)

From Stdlib Require Import String Ascii List ZArith Lia Bool.
From Stdlib Require Import DecimalString Decimal.
From Stdlib Require Import PrimFloat.
Import ListNotations.
Local Open Scope string_scope.
Local Open Scope Z_scope.
#[local] Set Warnings "-register-all".

(** ** Python values decoded from JSON *)

Inductive json : Type :=
| JNull
| JBool (b : bool)
| JInt (z : Z)
| JFloat (f : float)
| JStr (s : string)
| JArr (items : list json)
| JObj (fields : list (string * json)).

(** [nl] is the line feed character, written [\n] in the source. *)
Definition nl : string := String (ascii_of_nat 10) EmptyString.

(** [str(n)] for a Python [int]. *)
Definition str_of_int (z : Z) : string := NilEmpty.string_of_int (Z.to_int z).

Example str_of_int_status : str_of_int 404 = "404".
Proof. reflexivity. Qed.

Example str_of_int_zero : str_of_int 0 = "0".
Proof. reflexivity. Qed.

Example str_of_int_negative : str_of_int (-32601) = "-32601".
Proof. reflexivity. Qed.

(** [", ".join(parts)] *)
Fixpoint join_comma (parts : list string) : string :=
  match parts with
  | [] => ""
  | [p] => p
  | p :: rest => p ++ ", " ++ join_comma rest
  end.

(** [type(v).__name__], as it shows in the text of an [AttributeError]. *)
Definition type_name (v : json) : string :=
  match v with
  | JNull => "NoneType"
  | JBool _ => "bool"
  | JInt _ => "int"
  | JFloat _ => "float"
  | JStr _ => "str"
  | JArr _ => "list"
  | JObj _ => "dict"
  end.

(** [bool(v)]: [None], [False], zero, and every empty string, list and
    dictionary are false. *)
Definition truthy (v : json) : bool :=
  match v with
  | JNull => false
  | JBool b => b
  | JInt z => negb (z =? 0)
  | JFloat f => negb (PrimFloat.eqb f PrimFloat.zero)
  | JStr s => negb (String.eqb s "")
  | JArr items => match items with [] => false | _ => true end
  | JObj fields => match fields with [] => false | _ => true end
  end.

(** The values [not v] holds for, among those a JSON text decodes to. *)
Lemma falsy_values :
  truthy JNull = false /\ truthy (JStr "") = false /\ truthy (JBool false) = false
  /\ truthy (JInt 0) = false /\ truthy (JFloat 0%float) = false
  /\ truthy (JFloat (-0)%float) = false
  /\ truthy (JArr []) = false /\ truthy (JObj []) = false.
Proof. repeat split. Qed.

Example truthy_values :
  truthy (JStr "0") = true /\ truthy (JInt (-1)) = true /\ truthy (JFloat nan) = true
  /\ truthy (JArr [JNull]) = true.
Proof. repeat split. Qed.

(** [v == "literal"]: a Python value equals a string literal only when it is
    that very string. *)
Definition eq_str (v : json) (lit : string) : bool :=
  match v with
  | JStr s => String.eqb s lit
  | _ => false
  end.

(** Lookup in a dictionary held as an association list. *)
Fixpoint lookup (k : string) (fields : list (string * json)) : option json :=
  match fields with
  | [] => None
  | (k', v) :: rest => if String.eqb k k' then Some v else lookup k rest
  end.

(** [d.get(k, default)] on a dictionary. *)
Definition dict_get (fields : list (string * json)) (k : string) (default : json) : json :=
  match lookup k fields with
  | Some v => v
  | None => default
  end.

(** [k in d] *)
Definition dict_has (fields : list (string * json)) (k : string) : bool :=
  match lookup k fields with
  | Some _ => true
  | None => false
  end.

(** ** Exceptions and outcomes *)

Inductive exn_class : Type :=
| JSONDecodeError
| AttributeError
| OtherException.

Record exn : Type := mkExn { exn_kind : exn_class; exn_str : string }.

Inductive outcome (A : Type) : Type :=
| Ok (a : A)
| Raise (e : exn).
Arguments Ok {A} a.
Arguments Raise {A} e.

(** ** The hosting API as seen through [httpx] *)

Inductive http_call : Type :=
| POST (url : string) (body : json) (headers : list (string * string))
| GET (url : string) (headers : list (string * string))
| DELETE (url : string) (headers : list (string * string)).

(** A response object: [status_code] and what [response.json()] gives. *)
Record http_response : Type := mkResponse {
  status_code : Z;
  response_json : outcome json
}.

Definition is_delete (c : http_call) : bool :=
  match c with
  | DELETE _ _ => true
  | _ => false
  end.

(** ** The server *)

Section Server.

(** What the model takes from the Python runtime and from the environment:
    [repr] of floats and of strings, [str.strip], [json.loads], the value of
    the [GITHUB_TOKEN] variable, and the hosting API behind [httpx] (a
    transition function over some state of the outside world). *)
Variable float_repr : float -> string.
Variable str_repr : string -> string.
Variable py_strip : string -> string.
Variable json_loads : string -> outcome json.
Variable GITHUB_TOKEN : string.
Variable World : Type.
Variable http : http_call -> World -> outcome http_response * World.

Definition GITHUB_API_URL : string := "https://api.github.com/user/repos".

(** [repr(v)] *)
Fixpoint py_repr (v : json) : string :=
  match v with
  | JNull => "None"
  | JBool true => "True"
  | JBool false => "False"
  | JInt z => str_of_int z
  | JFloat f => float_repr f
  | JStr s => str_repr s
  | JArr items => "[" ++ join_comma (map py_repr items) ++ "]"
  | JObj fields =>
      "{" ++ join_comma (map (fun kv => match kv with
                                        | (k, x) => str_repr k ++ ": " ++ py_repr x
                                        end) fields) ++ "}"
  end.

(** [str(v)], which is what an f-string field [{v}] formats. *)
Definition py_str (v : json) : string :=
  match v with
  | JStr s => s
  | _ => py_repr v
  end.

(** *** State and monad *)

Record state : Type := mkState {
  stdin : string;            (* what is left to read on standard input *)
  stdout : list json;        (* the objects printed, one [json.dumps] line each *)
  world : World;             (* the hosting API *)
  calls : list http_call     (* the requests sent so far, oldest first *)
}.

Definition M (A : Type) : Type := state -> outcome A * state.

Definition ret {A} (a : A) : M A := fun s => (Ok a, s).

Definition bind {A B} (m : M A) (k : A -> M B) : M B :=
  fun s => match m s with
           | (Ok a, s') => k a s'
           | (Raise e, s') => (Raise e, s')
           end.

Definition raise {A} (e : exn) : M A := fun s => (Raise e, s).

Definition lift {A} (o : outcome A) : M A := fun s => (o, s).

(** [try: m  except Exception as e: h e] *)
Definition try_except {A} (m : M A) (h : exn -> M A) : M A :=
  fun s => match m s with
           | (Ok a, s') => (Ok a, s')
           | (Raise e, s') => h e s'
           end.

Notation "x <- m ;; k" := (bind m (fun x => k))
  (at level 100, m at next level, right associativity).
Notation "m ;;; k" := (bind m (fun _ => k))
  (at level 100, right associativity).

(** [v.get(k, default)] on any value: only a dictionary has the method. *)
Definition no_attribute (v : json) (attr : string) : exn :=
  mkExn AttributeError ("'" ++ type_name v ++ "' object has no attribute '" ++ attr ++ "'").

Definition py_get (v : json) (k : string) (default : json) : M json :=
  match v with
  | JObj fields => ret (dict_get fields k default)
  | _ => raise (no_attribute v "get")
  end.

(** One request through the [httpx] client. *)
Definition send (c : http_call) : M http_response :=
  fun s => let (r, w) := http c (world s) in
           (r, mkState (stdin s) (stdout s) w (calls s ++ [c])).

(** [print(json.dumps(obj), flush=True)] *)
Definition print (obj : json) : M unit :=
  fun s => (Ok tt, mkState (stdin s) (stdout s ++ [obj]) (world s) (calls s)).

(** *** Envelopes *)

(** A tool result with one text item; [isError] is there only when set. *)
Definition text_content (text : string) : json :=
  JArr [JObj [("type", JStr "text"); ("text", JStr text)]].

Definition tool_ok (text : string) : json :=
  JObj [("content", text_content text)].

Definition tool_error (text : string) : json :=
  JObj [("content", text_content text); ("isError", JBool true)].

Definition result_response (msg_id result : json) : json :=
  JObj [("jsonrpc", JStr "2.0"); ("id", msg_id); ("result", result)].

Definition error_object (code : Z) (message : string) : json :=
  JObj [("code", JInt code); ("message", JStr message)].

Definition error_response (msg_id : json) (code : Z) (message : string) : json :=
  JObj [("jsonrpc", JStr "2.0"); ("id", msg_id); ("error", error_object code message)].

(** The two responses [main] builds itself carry no [id] entry. *)
Definition anonymous_error (code : Z) (message : string) : json :=
  JObj [("jsonrpc", JStr "2.0"); ("error", error_object code message)].

Definition server_name : string := "github-repo-creator".
Definition server_version : string := "1.0.0".

Definition headers : list (string * string) :=
  [("Authorization", "token " ++ GITHUB_TOKEN);
   ("Accept", "application/vnd.github+json")].

(** *** [SimpleMCPServer] *)

Definition handle_initialize (message msg_id : json) : json :=
  result_response msg_id
    (JObj [("protocolVersion", JStr "2024-11-05");
           ("capabilities", JObj [("tools", JObj [])]);
           ("serverInfo", JObj [("name", JStr server_name);
                                ("version", JStr server_version)])]).

Definition string_property (description : string) : json :=
  JObj [("type", JStr "string"); ("description", JStr description)].

Definition boolean_property (description : string) (default : bool) : json :=
  JObj [("type", JStr "boolean"); ("description", JStr description);
        ("default", JBool default)].

Definition tool_descriptor (name description : string)
    (properties : list (string * json)) : json :=
  JObj [("name", JStr name);
        ("description", JStr description);
        ("inputSchema", JObj [("type", JStr "object");
                              ("properties", JObj properties);
                              ("required", JArr [JStr "name"])])].

Definition handle_list_tools (msg_id : json) : json :=
  result_response msg_id
    (JObj [("tools", JArr [
      tool_descriptor "create_github_repository" "Create a new GitHub repository"
        [("name", string_property "Name of the repository to create");
         ("private", boolean_property "Whether the repository should be private" false);
         ("description", string_property "Description of the repository");
         ("auto_init", boolean_property "Initialize repository with README" true)];
      tool_descriptor "delete_github_repository" "Delete a GitHub repository"
        [("name", string_property "Name of the repository to delete")]])]).

Definition name_required : json := tool_error "Error: Repository name is required".

(** [k in v] and [v[k]], which the code reaches with a dictionary only (the
    [get] before them has raised otherwise). *)
Definition has_key (v : json) (k : string) : bool :=
  match v with
  | JObj fields => dict_has fields k
  | _ => false
  end.

Definition item (v : json) (k : string) : json :=
  match v with
  | JObj fields => dict_get fields k JNull
  | _ => JNull
  end.

(** The payload of the creation request: [description] is set last, and only
    when the arguments have the key. *)
Definition creation_payload (arguments repo_name private auto_init : json) : json :=
  let json_data :=
    [("name", repo_name); ("private", private); ("auto_init", auto_init)] in
  JObj (if has_key arguments "description"
        then json_data ++ [("description", item arguments "description")]
        else json_data).

(** The [else] branch shared in shape by both tools: the body is decoded, its
    [message] is read, and the text names the status code. *)
Definition failure_text (what : string) (error_message : json) (code : Z) : string :=
  "❌ Failed to " ++ what ++ " repository: " ++ py_str error_message
    ++ " (Status: " ++ str_of_int code ++ ")".

Definition created_text (repo_name repo_url clone_url : json) : string :=
  "✅ Successfully created GitHub repository '" ++ py_str repo_name ++ "'!"
    ++ nl ++ nl ++ "Repository URL: " ++ py_str repo_url
    ++ nl ++ "Clone URL: " ++ py_str clone_url.

Definition create_github_repository (arguments : json) : M json :=
  try_except
    (repo_name <- py_get arguments "name" JNull ;;
     if negb (truthy repo_name) then ret name_required
     else
       private <- py_get arguments "private" (JBool false) ;;
       auto_init <- py_get arguments "auto_init" (JBool true) ;;
       let json_data := creation_payload arguments repo_name private auto_init in
       response <- send (POST GITHUB_API_URL json_data headers) ;;
       if status_code response =? 201 then
         repo_data <- lift (response_json response) ;;
         repo_url <- py_get repo_data "html_url" (JStr "Unknown") ;;
         clone_url <- py_get repo_data "clone_url" (JStr "Unknown") ;;
         ret (tool_ok (created_text repo_name repo_url clone_url))
       else
         error_data <- lift (response_json response) ;;
         error_message <- py_get error_data "message" (JStr "Unknown error") ;;
         ret (tool_error (failure_text "create" error_message (status_code response))))
    (fun e => ret (tool_error ("❌ Error creating repository: " ++ exn_str e))).

Definition user_url : string := "https://api.github.com/user".

Definition delete_url (username repo_name : json) : string :=
  "https://api.github.com/repos/" ++ py_str username ++ "/" ++ py_str repo_name.

Definition delete_github_repository (arguments : json) : M json :=
  try_except
    (repo_name <- py_get arguments "name" JNull ;;
     if negb (truthy repo_name) then ret name_required
     else
       user_response <- send (GET user_url headers) ;;
       if negb (status_code user_response =? 200) then
         ret (tool_error ("❌ Failed to get user info: "
                            ++ str_of_int (status_code user_response)))
       else
         user_data <- lift (response_json user_response) ;;
         username <- py_get user_data "login" JNull ;;
         response <- send (DELETE (delete_url username repo_name) headers) ;;
         if status_code response =? 204 then
           ret (tool_ok ("✅ Successfully deleted GitHub repository '"
                           ++ py_str repo_name ++ "'"))
         else
           error_data <- lift (response_json response) ;;
           error_message <- py_get error_data "message" (JStr "Unknown error") ;;
           ret (tool_error (failure_text "delete" error_message (status_code response))))
    (fun e => ret (tool_error ("❌ Error deleting repository: " ++ exn_str e))).

Definition handle_call_tool (message msg_id : json) : M json :=
  params <- py_get message "params" (JObj []) ;;
  tool_name <- py_get params "name" JNull ;;
  arguments <- py_get params "arguments" (JObj []) ;;
  if eq_str tool_name "create_github_repository" then
    result <- create_github_repository arguments ;;
    ret (result_response msg_id result)
  else if eq_str tool_name "delete_github_repository" then
    result <- delete_github_repository arguments ;;
    ret (result_response msg_id result)
  else
    ret (error_response msg_id (-32601) ("Unknown tool: " ++ py_str tool_name)).

Definition handle_message (message : json) : M json :=
  method <- py_get message "method" JNull ;;
  msg_id <- py_get message "id" JNull ;;
  if eq_str method "initialize" then ret (handle_initialize message msg_id)
  else if eq_str method "tools/list" then ret (handle_list_tools msg_id)
  else if eq_str method "tools/call" then handle_call_tool message msg_id
  else ret (error_response msg_id (-32601) ("Method not found: " ++ py_str method)).

(** *** [main] *)

(** [sys.stdin.readline()]: the next line with its line feed, or what is left
    when no line feed follows; the empty string at end of stream only. *)
Fixpoint readline (input : string) : string * string :=
  match input with
  | EmptyString => ("", "")
  | String c rest =>
      if Ascii.eqb c (ascii_of_nat 10) then (String c "", rest)
      else let (line, rest') := readline rest in (String c line, rest')
  end.

Definition read_line : M string :=
  fun s => let (line, rest) := readline (stdin s) in
           (Ok line, mkState rest (stdout s) (world s) (calls s)).

Definition parse_error (e : exn) : json :=
  anonymous_error (-32700) ("Parse error: " ++ exn_str e).

Definition internal_error (e : exn) : json :=
  anonymous_error (-32603) ("Internal error: " ++ exn_str e).

(** One turn of the [while True] loop; the value says whether it hit [break]. *)
Definition loop_body : M bool :=
  try_except
    (line <- read_line ;;
     if String.eqb line "" then ret true
     else
       message <- lift (json_loads (py_strip line)) ;;
       response <- handle_message message ;;
       print response ;;;
       ret false)
    (fun e =>
       match exn_kind e with
       | JSONDecodeError => print (parse_error e) ;;; ret false
       | _ => print (internal_error e) ;;; ret false
       end).

(** How a run of the loop ends: it left through [break], an exception got out
    of it, or the model's fuel ran out first. *)
Inductive run : Type :=
| Finished (s : state)
| Crashed (e : exn) (s : state)
| OutOfFuel.

Fixpoint main_loop (fuel : nat) (s : state) : run :=
  match fuel with
  | O => OutOfFuel
  | S fuel' =>
      match loop_body s with
      | (Ok true, s') => Finished s'
      | (Ok false, s') => main_loop fuel' s'
      | (Raise e, s') => Crashed e s'
      end
  end.

(** Every turn but the last reads at least one character, so this much fuel
    is enough (see [main_loop_runs]). *)
Definition main (s : state) : run :=
  main_loop (S (String.length (stdin s))) s.

(** ** What a caller observes *)

(** The [id], [result] and [error] entries of a response, when it has them. *)
Definition response_id (r : json) : option json :=
  match r with JObj fields => lookup "id" fields | _ => None end.

Definition result_of (r : json) : option json :=
  match r with JObj fields => lookup "result" fields | _ => None end.

Definition error_of (r : json) : option json :=
  match r with JObj fields => lookup "error" fields | _ => None end.

Definition error_code (r : json) : option json :=
  match error_of r with
  | Some (JObj fields) => lookup "code" fields
  | _ => None
  end.

Definition error_message (r : json) : option json :=
  match error_of r with
  | Some (JObj fields) => lookup "message" fields
  | _ => None
  end.

(** The text of a tool result's only content item, and its [isError] entry. *)
Definition result_text (r : json) : option string :=
  match r with
  | JObj fields =>
      match lookup "content" fields with
      | Some (JArr [JObj entry]) =>
          match lookup "text" entry with
          | Some (JStr text) => Some text
          | _ => None
          end
      | _ => None
      end
  | _ => None
  end.

Definition is_error (r : json) : option json :=
  match r with JObj fields => lookup "isError" fields | _ => None end.

Definition is_object (v : json) : bool :=
  match v with JObj _ => true | _ => false end.

(** [needle] occurs in [text]. *)
Definition contains (needle text : string) : Prop :=
  exists before after, text = before ++ needle ++ after.

(** A decidable reading of [contains]. *)
Fixpoint occurs (needle text : string) : bool :=
  String.prefix needle text
  || match text with
     | EmptyString => false
     | String _ text' => occurs needle text'
     end.

(** The input cut into the lines [readline] returns one after the other. *)
Fixpoint split_lines (input : string) : list string :=
  match input with
  | EmptyString => []
  | String c rest =>
      if Ascii.eqb c (ascii_of_nat 10) then String c "" :: split_lines rest
      else match split_lines rest with
           | [] => [String c ""]
           | line :: lines => String c line :: lines
           end
  end.

(** A tool result: one text item, with or without the [isError] flag. *)
Inductive tool_result : json -> Prop :=
| tool_result_ok text : tool_result (tool_ok text)
| tool_result_error text : tool_result (tool_error text).

(** The responses the server writes: what the dispatcher returns, and the two
    errors of the transport loop. *)
Inductive emitted : json -> Prop :=
| emitted_initialize message msg_id : emitted (handle_initialize message msg_id)
| emitted_list_tools msg_id : emitted (handle_list_tools msg_id)
| emitted_tool msg_id result :
    tool_result result -> emitted (result_response msg_id result)
| emitted_not_found msg_id message : emitted (error_response msg_id (-32601) message)
| emitted_parse_error message : emitted (anonymous_error (-32700) message)
| emitted_internal_error message : emitted (anonymous_error (-32603) message).

(** The state once a line is read, and once a response is printed. *)
Definition consumed (s : state) (rest : string) : state :=
  mkState rest (stdout s) (world s) (calls s).

Definition printed (s : state) (r : json) : state :=
  mkState (stdin s) (stdout s ++ [r]) (world s) (calls s).

(** The response the two [except] clauses of [main] write for an exception. *)
Definition loop_error (e : exn) : json :=
  match exn_kind e with
  | JSONDecodeError => parse_error e
  | _ => internal_error e
  end.

(** ** Properties *)

(** *** The monad *)

Lemma bind_ok {A B} (m : M A) (k : A -> M B) s a s' :
  m s = (Ok a, s') -> bind m k s = k a s'.
Proof. unfold bind; intros ->; reflexivity. Qed.

Lemma state_eta s : mkState (stdin s) (stdout s) (world s) (calls s) = s.
Proof. destruct s; reflexivity. Qed.

(** A computation that only appends to the request log and never touches the
    standard streams. *)
Definition extends_calls (s s' : state) : Prop :=
  stdin s' = stdin s /\ stdout s' = stdout s /\
  exists new_calls, calls s' = (calls s ++ new_calls)%list.

Lemma extends_refl s : extends_calls s s.
Proof. repeat split; exists []; rewrite app_nil_r; reflexivity. Qed.

Lemma extends_trans s1 s2 s3 :
  extends_calls s1 s2 -> extends_calls s2 s3 -> extends_calls s1 s3.
Proof.
  intros (I1 & O1 & n1 & C1) (I2 & O2 & n2 & C2).
  repeat split; try congruence.
  exists (n1 ++ n2)%list. rewrite C2, C1, <- app_assoc. reflexivity.
Qed.

Lemma send_extends c s r s' : send c s = (r, s') -> extends_calls s s'.
Proof.
  unfold send. destruct (http c (world s)) as [r0 w]. intros [= <- <-].
  repeat split. exists [c]. reflexivity.
Qed.

(** *** The tool executor *)

Ltac run_monad :=
  unfold try_except, bind, ret, lift, raise, py_get; simpl.

Lemma create_returns arguments s :
  exists r s', create_github_repository arguments s = (Ok r, s')
               /\ tool_result r /\ extends_calls s s'.
Proof.
  unfold create_github_repository. run_monad.
  destruct arguments; simpl;
    try (eexists _, _; split; [reflexivity | split; [constructor | apply extends_refl]]).
  destruct (truthy _); simpl;
    try (eexists _, _; split; [reflexivity | split; [constructor | apply extends_refl]]).
  destruct (send _ s) as [[resp | e] s1] eqn:Hsend;
    apply send_extends in Hsend; simpl;
    try (eexists _, _; split; [reflexivity | split; [constructor | exact Hsend]]).
  destruct (status_code resp =? 201); simpl;
    destruct (response_json resp) as [[] | e]; simpl;
    eexists _, _; (split; [reflexivity | split; [constructor | exact Hsend]]).
Qed.

Lemma delete_returns arguments s :
  exists r s', delete_github_repository arguments s = (Ok r, s')
               /\ tool_result r /\ extends_calls s s'.
Proof.
  unfold delete_github_repository. run_monad.
  destruct arguments; simpl;
    try (eexists _, _; split; [reflexivity | split; [constructor | apply extends_refl]]).
  destruct (truthy _); simpl;
    try (eexists _, _; split; [reflexivity | split; [constructor | apply extends_refl]]).
  destruct (send _ s) as [[resp | e] s1] eqn:Hsend;
    apply send_extends in Hsend; simpl;
    try (eexists _, _; split; [reflexivity | split; [constructor | exact Hsend]]).
  destruct (status_code resp =? 200); simpl;
    try (eexists _, _; split; [reflexivity | split; [constructor | exact Hsend]]).
  destruct (response_json resp) as [[] | e]; simpl;
    try (eexists _, _; split; [reflexivity | split; [constructor | exact Hsend]]).
  destruct (send _ s1) as [[resp2 | e2] s2] eqn:Hsend2;
    apply send_extends in Hsend2; simpl;
    pose proof (extends_trans _ _ _ Hsend Hsend2) as Hboth;
    try (eexists _, _; split; [reflexivity | split; [constructor | exact Hboth]]).
  destruct (status_code resp2 =? 204); simpl;
    destruct (response_json resp2) as [[] | e]; simpl;
    eexists _, _; (split; [reflexivity | split; [constructor | exact Hboth]]).
Qed.

Lemma append_nil_r (a : string) : a ++ "" = a.
Proof. induction a as [| c a IH]; simpl; [reflexivity | now rewrite IH]. Qed.

Lemma append_assoc (a b c : string) : (a ++ b) ++ c = a ++ b ++ c.
Proof. induction a as [| x a IH]; simpl; [reflexivity | now rewrite IH]. Qed.

Lemma contains_append_l needle a b : contains needle b -> contains needle (a ++ b).
Proof.
  intros (before & after & ->). exists (a ++ before), after.
  now rewrite append_assoc.
Qed.

Lemma prefix_append needle after : String.prefix needle (needle ++ after) = true.
Proof.
  induction needle as [| c needle IH]; simpl.
  - now destruct after.
  - destruct (ascii_dec c c) as [_ | N]; [exact IH | now elim N].
Qed.

Lemma occurs_prefix needle text : String.prefix needle text = true -> occurs needle text = true.
Proof. intros H. destruct text; cbn [occurs]; rewrite H; reflexivity. Qed.

Lemma contains_occurs needle text : contains needle text -> occurs needle text = true.
Proof.
  intros (before & after & ->).
  induction before as [| c before IH]; simpl.
  - apply occurs_prefix, prefix_append.
  - rewrite IH. apply orb_true_r.
Qed.

(** An empty or absent [name] ends [create_github_repository] at once: the
    result is the required-name error, and the state (standard streams, hosting
    API, request log) is the one it started in. *)
Lemma create_without_name args s :
  truthy (dict_get args "name" JNull) = false ->
  create_github_repository (JObj args) s = (Ok name_required, s).
Proof.
  intros H. unfold create_github_repository. run_monad. rewrite H. reflexivity.
Qed.

Lemma delete_without_name args s :
  truthy (dict_get args "name" JNull) = false ->
  delete_github_repository (JObj args) s = (Ok name_required, s).
Proof.
  intros H. unfold delete_github_repository. run_monad. rewrite H. reflexivity.
Qed.

(** The state after [create_github_repository] sent its one request. *)
Definition creation_call (args : list (string * json)) : http_call :=
  POST GITHUB_API_URL
       (creation_payload (JObj args) (dict_get args "name" JNull)
                         (dict_get args "private" (JBool false))
                         (dict_get args "auto_init" (JBool true)))
       headers.

Definition after_call (s : state) (w : World) (c : http_call) : state :=
  mkState (stdin s) (stdout s) w (calls s ++ [c]).

Lemma create_after_response args s resp w :
  truthy (dict_get args "name" JNull) = true ->
  http (creation_call args) (world s) = (Ok resp, w) ->
  create_github_repository (JObj args) s =
    (Ok (if status_code resp =? 201 then
           match response_json resp with
           | Ok (JObj body) =>
               tool_ok (created_text (dict_get args "name" JNull)
                                     (dict_get body "html_url" (JStr "Unknown"))
                                     (dict_get body "clone_url" (JStr "Unknown")))
           | Ok v => tool_error ("❌ Error creating repository: "
                                   ++ exn_str (no_attribute v "get"))
           | Raise e => tool_error ("❌ Error creating repository: " ++ exn_str e)
           end
         else
           match response_json resp with
           | Ok (JObj body) =>
               tool_error (failure_text "create"
                                        (dict_get body "message" (JStr "Unknown error"))
                                        (status_code resp))
           | Ok v => tool_error ("❌ Error creating repository: "
                                   ++ exn_str (no_attribute v "get"))
           | Raise e => tool_error ("❌ Error creating repository: " ++ exn_str e)
           end),
     after_call s w (creation_call args)).
Proof.
  intros Hname Hhttp. unfold create_github_repository. run_monad.
  rewrite Hname. simpl. unfold send. fold (creation_call args). rewrite Hhttp.
  destruct (status_code resp =? 201); simpl;
    destruct (response_json resp) as [[] | e]; reflexivity.
Qed.

Lemma delete_after_failed_lookup args s resp w :
  truthy (dict_get args "name" JNull) = true ->
  http (GET user_url headers) (world s) = (Ok resp, w) ->
  status_code resp <> 200 ->
  delete_github_repository (JObj args) s =
    (Ok (tool_error ("❌ Failed to get user info: " ++ str_of_int (status_code resp))),
     after_call s w (GET user_url headers)).
Proof.
  intros Hname Hhttp Hcode. unfold delete_github_repository. run_monad.
  rewrite Hname. simpl. unfold send. rewrite Hhttp.
  apply Z.eqb_neq in Hcode. rewrite Hcode. reflexivity.
Qed.

(** *** The dispatcher *)

(** What [handle_call_tool] does once [params] is known to be a dictionary. *)
Definition call_tool (params : list (string * json)) (msg_id : json) : M json :=
  let tool_name := dict_get params "name" JNull in
  let arguments := dict_get params "arguments" (JObj []) in
  if eq_str tool_name "create_github_repository" then
    bind (create_github_repository arguments) (fun result => ret (result_response msg_id result))
  else if eq_str tool_name "delete_github_repository" then
    bind (delete_github_repository arguments) (fun result => ret (result_response msg_id result))
  else ret (error_response msg_id (-32601) ("Unknown tool: " ++ py_str tool_name)).

Lemma handle_call_tool_object fields params msg_id s :
  dict_get fields "params" (JObj []) = JObj params ->
  handle_call_tool (JObj fields) msg_id s = call_tool params msg_id s.
Proof.
  intros H. unfold handle_call_tool, call_tool. run_monad. rewrite H. reflexivity.
Qed.

Lemma handle_call_tool_raises fields msg_id s :
  is_object (dict_get fields "params" (JObj [])) = false ->
  handle_call_tool (JObj fields) msg_id s =
    (Raise (no_attribute (dict_get fields "params" (JObj [])) "get"), s).
Proof.
  intros H. unfold handle_call_tool. run_monad.
  destruct (dict_get fields "params" (JObj [])); try discriminate; reflexivity.
Qed.

Lemma handle_message_object fields s :
  handle_message (JObj fields) s =
    let method := dict_get fields "method" JNull in
    let msg_id := dict_get fields "id" JNull in
    if eq_str method "initialize" then (Ok (handle_initialize (JObj fields) msg_id), s)
    else if eq_str method "tools/list" then (Ok (handle_list_tools msg_id), s)
    else if eq_str method "tools/call" then handle_call_tool (JObj fields) msg_id s
    else (Ok (error_response msg_id (-32601) ("Method not found: " ++ py_str method)), s).
Proof.
  unfold handle_message. run_monad.
  destruct (eq_str _ "initialize"); [reflexivity |].
  destruct (eq_str _ "tools/list"); [reflexivity |].
  destruct (eq_str _ "tools/call"); reflexivity.
Qed.

Lemma handle_message_tools_call fields s :
  lookup "method" fields = Some (JStr "tools/call") ->
  handle_message (JObj fields) s =
    handle_call_tool (JObj fields) (dict_get fields "id" JNull) s.
Proof.
  intros H. rewrite handle_message_object. unfold dict_get at 1 2 3. rewrite H.
  reflexivity.
Qed.

Lemma call_tool_emits params msg_id s :
  exists r s', call_tool params msg_id s = (Ok r, s')
               /\ emitted r /\ response_id r = Some msg_id /\ extends_calls s s'.
Proof.
  unfold call_tool.
  destruct (eq_str _ "create_github_repository").
  - destruct (create_returns (dict_get params "arguments" (JObj [])) s)
      as (r & s' & E & T & X).
    exists (result_response msg_id r), s'. rewrite (bind_ok _ _ _ _ _ E).
    split; [reflexivity | split; [now constructor | split; [reflexivity | exact X]]].
  - destruct (eq_str _ "delete_github_repository").
    + destruct (delete_returns (dict_get params "arguments" (JObj [])) s)
        as (r & s' & E & T & X).
      exists (result_response msg_id r), s'. rewrite (bind_ok _ _ _ _ _ E).
      split; [reflexivity | split; [now constructor | split; [reflexivity | exact X]]].
    + eexists _, s. split; [reflexivity |].
      split; [constructor | split; [reflexivity | apply extends_refl]].
Qed.

(** Every way [handle_message] ends: a response that echoes the message's [id]
    (or [None] when it has none), or the [AttributeError] of a [get] on
    something that is no dictionary, raised before any request was sent. *)
Lemma handle_message_outcome message s :
  (exists r s', handle_message message s = (Ok r, s')
                /\ emitted r /\ extends_calls s s'
                /\ exists fields, message = JObj fields
                                  /\ response_id r = Some (dict_get fields "id" JNull))
  \/ (exists v, handle_message message s = (Raise (no_attribute v "get"), s)
                /\ is_object v = false).
Proof.
  destruct message as [| b | z | f | str | items | fields];
    try (right; eexists; split; [reflexivity | reflexivity]).
  rewrite handle_message_object. cbv zeta.
  destruct (eq_str _ "initialize").
  { left. eexists _, s. split; [reflexivity |].
    split; [constructor | split; [apply extends_refl |]]. now exists fields. }
  destruct (eq_str _ "tools/list").
  { left. eexists _, s. split; [reflexivity |].
    split; [constructor | split; [apply extends_refl |]]. now exists fields. }
  destruct (eq_str _ "tools/call").
  - destruct (dict_get fields "params" (JObj [])) as [| b | z | f | str | items | params] eqn:P;
      try (right; eexists; split;
           [rewrite handle_call_tool_raises; rewrite P; reflexivity | reflexivity]).
    left. rewrite (handle_call_tool_object _ _ _ _ P).
    destruct (call_tool_emits params (dict_get fields "id" JNull) s)
      as (r & s' & E & Em & Id & X).
    exists r, s'. split; [exact E | split; [exact Em | split; [exact X |]]].
    now exists fields.
  - left. eexists _, s. split; [reflexivity |].
    split; [constructor | split; [apply extends_refl |]]. now exists fields.
Qed.

(** *** The transport loop *)

Lemma readline_empty input : fst (readline input) = "" -> input = "".
Proof.
  destruct input as [| c rest]; [reflexivity |]. simpl.
  destruct (Ascii.eqb c (ascii_of_nat 10)); [discriminate |].
  destruct (readline rest); discriminate.
Qed.

Lemma readline_length input line rest :
  readline input = (line, rest) ->
  String.length input = (String.length line + String.length rest)%nat.
Proof.
  revert line rest. induction input as [| c input IH]; intros line rest; simpl.
  - intros [= <- <-]. reflexivity.
  - destruct (Ascii.eqb c (ascii_of_nat 10)).
    + intros [= <- <-]. reflexivity.
    + destruct (readline input) as [l r]. intros [= <- <-]. simpl.
      now rewrite (IH l r eq_refl).
Qed.

Lemma readline_shorter input line rest :
  readline input = (line, rest) -> line <> "" ->
  (String.length rest < String.length input)%nat.
Proof.
  intros H N. rewrite (readline_length _ _ _ H).
  destruct line; [now elim N | simpl; lia].
Qed.

Lemma split_lines_readline input line rest :
  readline input = (line, rest) -> line <> "" ->
  split_lines input = line :: split_lines rest.
Proof.
  revert line rest. induction input as [| c input IH]; intros line rest; simpl.
  - intros [= <- <-] N. now elim N.
  - destruct (Ascii.eqb c (ascii_of_nat 10)).
    + intros [= <- <-] _. reflexivity.
    + destruct (readline input) as [l r] eqn:R. intros [= <- <-] _.
      destruct l as [| c' l].
      * pose proof (readline_empty input) as E. rewrite R in E.
        specialize (E eq_refl). subst input. simpl in R. injection R as <-.
        reflexivity.
      * rewrite (IH _ _ eq_refl); [reflexivity | discriminate].
Qed.

Lemma loop_body_eof s : stdin s = "" -> loop_body s = (Ok true, s).
Proof.
  intros H. unfold loop_body, read_line. run_monad. rewrite H. simpl.
  rewrite <- H. rewrite state_eta. reflexivity.
Qed.

(** One turn on a line: the line is consumed, and exactly one response is
    printed whatever happens to it. *)
Lemma loop_body_line s line rest :
  readline (stdin s) = (line, rest) -> line <> "" ->
  loop_body s =
    match json_loads (py_strip line) with
    | Raise e => (Ok false, printed (consumed s rest) (loop_error e))
    | Ok message =>
        match handle_message message (consumed s rest) with
        | (Ok response, s') => (Ok false, printed s' response)
        | (Raise e, s') => (Ok false, printed s' (loop_error e))
        end
    end.
Proof.
  intros R N. unfold loop_body, read_line. run_monad. rewrite R.
  apply String.eqb_neq in N. rewrite N. fold (consumed s rest).
  destruct (json_loads (py_strip line)) as [message | e].
  - destruct (handle_message message (consumed s rest)) as [[response | e] s'].
    + reflexivity.
    + unfold loop_error, print. destruct (exn_kind e); reflexivity.
  - unfold loop_error, print. destruct (exn_kind e); reflexivity.
Qed.

Lemma loop_error_emitted e : emitted (loop_error e).
Proof. unfold loop_error. destruct (exn_kind e); constructor. Qed.

Lemma loop_body_turn s line rest :
  readline (stdin s) = (line, rest) -> line <> "" ->
  exists r s', loop_body s = (Ok false, s')
               /\ emitted r /\ stdin s' = rest
               /\ stdout s' = (stdout s ++ [r])%list.
Proof.
  intros R N. rewrite (loop_body_line s line rest R N).
  destruct (json_loads (py_strip line)) as [message | e].
  - destruct (handle_message_outcome message (consumed s rest))
      as [(r & s' & E & Em & (I & O & _) & _) | (v & E & _)]; rewrite E.
    + exists r, (printed s' r). simpl. rewrite I, O. auto.
    + eexists _, _. split; [reflexivity |]. split; [apply loop_error_emitted |].
      split; reflexivity.
  - eexists _, _. split; [reflexivity |]. split; [apply loop_error_emitted |].
    split; reflexivity.
Qed.

Lemma main_loop_runs fuel : forall s,
  (String.length (stdin s) < fuel)%nat ->
  exists final out, main_loop fuel s = Finished final
                    /\ stdin final = ""
                    /\ stdout final = (stdout s ++ out)%list
                    /\ Forall emitted out
                    /\ length out = length (split_lines (stdin s)).
Proof.
  induction fuel as [| fuel IH]; intros s L; [lia |].
  destruct (readline (stdin s)) as [line rest] eqn:R.
  destruct (string_dec line "") as [E | N].
  - subst line. pose proof (readline_empty (stdin s)) as E. rewrite R in E.
    specialize (E eq_refl). simpl. rewrite (loop_body_eof s E).
    exists s, []. rewrite app_nil_r, E. repeat split. constructor.
  - destruct (loop_body_turn s line rest R N) as (r & s' & B & Em & I & O).
    simpl. rewrite B.
    pose proof (readline_shorter _ _ _ R N) as Sh.
    destruct (IH s') as (final & out & F & I' & O' & Em' & Len); [rewrite I; lia |].
    exists final, (r :: out). rewrite F, O', O, <- app_assoc.
    rewrite (split_lines_readline _ _ _ R N), I in *. simpl.
    repeat split; auto.
Qed.

Lemma main_loop_more_fuel fuel : forall s final,
  main_loop fuel s = Finished final -> main_loop (S fuel) s = Finished final.
Proof.
  induction fuel as [| fuel IH]; intros s final; [discriminate |].
  intros H. simpl in H. change (main_loop (S (S fuel)) s) with
    (match loop_body s with
     | (Ok true, s') => Finished s'
     | (Ok false, s') => main_loop (S fuel) s'
     | (Raise e, s') => Crashed e s'
     end).
  destruct (loop_body s) as [[[|] | e] s']; try assumption. now apply IH.
Qed.

Lemma main_loop_fuel fuel fuel' s final :
  main_loop fuel s = Finished final -> (fuel <= fuel')%nat ->
  main_loop fuel' s = Finished final.
Proof.
  intros H L. induction L; [assumption | now apply main_loop_more_fuel].
Qed.

(** After a turn that did not [break], [main] goes on as if started there. *)
Lemma main_after_turn s line rest s' :
  readline (stdin s) = (line, rest) -> line <> "" ->
  loop_body s = (Ok false, s') -> stdin s' = rest ->
  main s = main s'.
Proof.
  intros R N B I. unfold main at 1. simpl. rewrite B.
  destruct (main_loop_runs (S (String.length (stdin s'))) s') as (final & out & F & _);
    [lia |].
  unfold main. rewrite F.
  apply (main_loop_fuel _ _ _ _ F).
  pose proof (readline_shorter _ _ _ R N). rewrite I. lia.
Qed.

Lemma contains_prefix needle after : contains needle (needle ++ after).
Proof. exists "", after. reflexivity. Qed.

Lemma contains_refl needle : contains needle needle.
Proof. exists "", "". simpl. now rewrite append_nil_r. Qed.

Ltac find_in_text :=
  repeat first [ apply contains_refl | apply contains_prefix | apply contains_append_l ].

(** A response has a [result] that is an object and no [error], or the other
    way round. *)
Definition result_xor_error (r : json) : Prop :=
  (exists o, result_of r = Some (JObj o) /\ error_of r = None)
  \/ (exists o, error_of r = Some (JObj o) /\ result_of r = None).

Lemma emitted_result_xor_error r : emitted r -> result_xor_error r.
Proof.
  intros [message msg_id | msg_id | msg_id result T | msg_id message | message | message].
  - left. eexists. split; reflexivity.
  - left. eexists. split; reflexivity.
  - left. destruct T; eexists; split; reflexivity.
  - right. eexists. split; reflexivity.
  - right. eexists. split; reflexivity.
  - right. eexists. split; reflexivity.
Qed.

(** The error codes the server uses. *)
Definition known_code (r : json) : Prop :=
  error_code r = None
  \/ error_code r = Some (JInt (-32601))
  \/ error_code r = Some (JInt (-32700))
  \/ error_code r = Some (JInt (-32603)).

Lemma emitted_known_code r : emitted r -> known_code r.
Proof.
  intros [message msg_id | msg_id | msg_id result T | msg_id message | message | message];
    unfold known_code; cbn; auto.
Qed.

Lemma Forall_emitted_impl (P : json -> Prop) out :
  (forall r, emitted r -> P r) -> Forall emitted out -> Forall P out.
Proof. intros H F. induction F; constructor; auto. Qed.

(** ** The claims *)

(** C1 (as the code has it): a line that decodes to an object carrying an
    [id] X makes the loop print exactly one response.  That response carries X
    unchanged whenever the dispatcher returns it (initialize, tools/list,
    unknown method, and tools/call with [params] absent or an object).  When
    the method is tools/call and [params] is no object, the one response is
    the loop's internal error, code -32603, and it has no [id] entry. *)
Theorem response_echoes_identifier s line rest fields X :
  readline (stdin s) = (line, rest) -> line <> "" ->
  json_loads (py_strip line) = Ok (JObj fields) ->
  lookup "id" fields = Some X ->
  exists r s',
    loop_body s = (Ok false, s')
    /\ stdin s' = rest
    /\ stdout s' = (stdout s ++ [r])%list
    /\ if eq_str (dict_get fields "method" JNull) "tools/call"
          && negb (is_object (dict_get fields "params" (JObj [])))
       then r = anonymous_error (-32603)
                  ("Internal error: '" ++ type_name (dict_get fields "params" (JObj []))
                     ++ "' object has no attribute 'get'")
            /\ response_id r = None
       else response_id r = Some X.
Proof.
  intros R N L Id. rewrite (loop_body_line s line rest R N), L.
  assert (DId : dict_get fields "id" JNull = X) by (unfold dict_get; now rewrite Id).
  destruct (handle_message_outcome (JObj fields) (consumed s rest))
    as [(r & s' & E & _ & (I & O & _) & fields' & [= <-] & RId) | (v & E & Obj)].
  - rewrite E. exists r, (printed s' r). simpl. rewrite I, O.
    repeat split.
    destruct (eq_str _ "tools/call" && _) eqn:T; [| now rewrite RId, DId].
    apply andb_true_iff in T as [T P]. apply negb_true_iff in P.
    rewrite handle_message_object in E. cbv zeta in E.
    destruct (dict_get fields "method" JNull); try discriminate T.
    simpl in T. apply String.eqb_eq in T. subst s0. simpl in E.
    rewrite (handle_call_tool_raises _ _ _ P) in E. discriminate E.
  - assert (T : eq_str (dict_get fields "method" JNull) "tools/call"
                 && negb (is_object (dict_get fields "params" (JObj []))) = true
               /\ handle_message (JObj fields) (consumed s rest) =
                    (Raise (no_attribute (dict_get fields "params" (JObj [])) "get"),
                     consumed s rest)).
    { rewrite handle_message_object in *. cbv zeta in *.
      destruct (eq_str (dict_get fields "method" JNull) "initialize"); [discriminate E |].
      destruct (eq_str (dict_get fields "method" JNull) "tools/list"); [discriminate E |].
      destruct (eq_str (dict_get fields "method" JNull) "tools/call"); [| discriminate E].
      destruct (is_object (dict_get fields "params" (JObj []))) eqn:P.
      - destruct (dict_get fields "params" (JObj [])) as [| | | | | | params] eqn:D;
          try discriminate P.
        rewrite (handle_call_tool_object _ _ _ _ D) in E.
        destruct (call_tool_emits params (dict_get fields "id" JNull) (consumed s rest))
          as (r & s' & E' & _). rewrite E' in E. discriminate E.
      - split; [reflexivity | now apply handle_call_tool_raises]. }
    destruct T as [T E2]. rewrite E2, T.
    eexists _, _. split; [reflexivity |]. simpl. repeat split.
Qed.

(** C2 (as the code has it): when [name] is given and the user lookup answers
    with a status other than 200, [delete_github_repository] returns the tool
    result whose text is "❌ Failed to get user info: <code>" with [isError]
    true; the lookup is the only request it sends, so none goes to the
    deletion endpoint. *)
Theorem delete_aborts_when_lookup_fails args s resp w :
  truthy (dict_get args "name" JNull) = true ->
  http (GET user_url headers) (world s) = (Ok resp, w) ->
  status_code resp <> 200 ->
  exists r s',
    delete_github_repository (JObj args) s = (Ok r, s')
    /\ result_text r = Some ("❌ Failed to get user info: " ++ str_of_int (status_code resp))
    /\ is_error r = Some (JBool true)
    /\ calls s' = (calls s ++ [GET user_url headers])%list
    /\ existsb is_delete [GET user_url headers] = false.
Proof.
  intros Hname Hhttp Hcode.
  rewrite (delete_after_failed_lookup args s resp w Hname Hhttp Hcode).
  eexists _, _. split; [reflexivity |]. repeat split.
Qed.

(** C3 (as the code has it): with an absent or empty [name],
    [create_github_repository] returns the tool result with [isError] true and
    text "Error: Repository name is required", and leaves the state as it
    was: no request is sent. *)
Theorem create_requires_name args s :
  lookup "name" args = None \/ lookup "name" args = Some (JStr "") ->
  exists r,
    create_github_repository (JObj args) s = (Ok r, s)
    /\ result_text r = Some "Error: Repository name is required"
    /\ is_error r = Some (JBool true).
Proof.
  intros H. exists name_required. split; [| split; reflexivity].
  apply create_without_name. unfold dict_get. destruct H as [-> | ->]; reflexivity.
Qed.

(** C4: a tools/call request whose [params] name a tool other than the two
    registered ones gets the error response with code -32601; its message is
    "Unknown tool: " followed by the name, and the response has no [result]. *)
Theorem unknown_tool_is_protocol_error fields params tool_name s :
  lookup "method" fields = Some (JStr "tools/call") ->
  lookup "params" fields = Some (JObj params) ->
  lookup "name" params = Some tool_name ->
  eq_str tool_name "create_github_repository" = false ->
  eq_str tool_name "delete_github_repository" = false ->
  exists r message,
    handle_message (JObj fields) s = (Ok r, s)
    /\ error_code r = Some (JInt (-32601))
    /\ error_message r = Some (JStr message)
    /\ message = "Unknown tool: " ++ py_str tool_name
    /\ contains (py_str tool_name) message
    /\ result_of r = None.
Proof.
  intros Hm Hp Hn Hc Hd.
  rewrite (handle_message_tools_call _ _ Hm).
  assert (P : dict_get fields "params" (JObj []) = JObj params)
    by (unfold dict_get; now rewrite Hp).
  rewrite (handle_call_tool_object _ _ _ _ P). unfold call_tool.
  assert (Nm : dict_get params "name" JNull = tool_name)
    by (unfold dict_get; now rewrite Hn).
  rewrite Nm, Hc, Hd.
  eexists _, _. split; [reflexivity |]. repeat split. find_in_text.
Qed.

(** C5: with a usable [name], when the creation request is answered with
    status 201 and a body that decodes to an object, the tool result's text
    contains the two URLs read from the body, [html_url] and [clone_url]
    (each "Unknown" when the body has no such entry), and the result has no
    [isError] entry. *)
Theorem create_reports_urls args s resp w body :
  truthy (dict_get args "name" JNull) = true ->
  http (creation_call args) (world s) = (Ok resp, w) ->
  status_code resp = 201 ->
  response_json resp = Ok (JObj body) ->
  exists r text,
    create_github_repository (JObj args) s = (Ok r, after_call s w (creation_call args))
    /\ result_text r = Some text
    /\ contains (py_str (dict_get body "html_url" (JStr "Unknown"))) text
    /\ contains (py_str (dict_get body "clone_url" (JStr "Unknown"))) text
    /\ is_error r = None.
Proof.
  intros Hname Hhttp Hcode Hbody.
  rewrite (create_after_response args s resp w Hname Hhttp), Hcode, Hbody. simpl.
  eexists _, _. split; [reflexivity |]. split; [reflexivity |].
  unfold created_text. split; [find_in_text | split; [find_in_text | reflexivity]].
Qed.

(** C6 (as the code has it): with a usable [name], when the creation request
    is answered with a status other than 201, the tool result has [isError]
    true.  If the body decodes to an object, the text is
    "❌ Failed to create repository: <message> (Status: <code>)", where
    <message> is the body's [message] entry, or "Unknown error" without one.
    If the body does not decode, or decodes to something else than an object,
    the text is "❌ Error creating repository: " followed by the exception's
    text, with no status code. *)
Theorem create_failure_text args s resp w :
  truthy (dict_get args "name" JNull) = true ->
  http (creation_call args) (world s) = (Ok resp, w) ->
  status_code resp <> 201 ->
  exists r,
    create_github_repository (JObj args) s = (Ok r, after_call s w (creation_call args))
    /\ is_error r = Some (JBool true)
    /\ result_text r =
         Some (match response_json resp with
               | Ok (JObj body) =>
                   "❌ Failed to create repository: "
                     ++ py_str (dict_get body "message" (JStr "Unknown error"))
                     ++ " (Status: " ++ str_of_int (status_code resp) ++ ")"
               | Ok v =>
                   "❌ Error creating repository: '" ++ type_name v
                     ++ "' object has no attribute 'get'"
               | Raise e => "❌ Error creating repository: " ++ exn_str e
               end).
Proof.
  intros Hname Hhttp Hcode.
  rewrite (create_after_response args s resp w Hname Hhttp).
  apply Z.eqb_neq in Hcode. rewrite Hcode.
  destruct (response_json resp) as [[] | e];
    eexists; (split; [reflexivity | split; reflexivity]).
Qed.


(** C8: [main] ends normally on every input, and every response it printed
    has either a [result] object and no [error], or an [error] object and no
    [result]. *)
Theorem responses_have_result_xor_error s :
  exists final out,
    main s = Finished final
    /\ stdout final = (stdout s ++ out)%list
    /\ length out = length (split_lines (stdin s))
    /\ Forall result_xor_error out.
Proof.
  unfold main.
  destruct (main_loop_runs _ s (Nat.lt_succ_diag_r _)) as (final & out & F & _ & O & Em & Len).
  exists final, out. repeat split; try assumption.
  apply (Forall_emitted_impl _ _ emitted_result_xor_error Em).
Qed.

(** C9: both tools test [name] with [not repo_name].  Whenever the value is
    false in Python's sense (no entry, [None], the empty string, [False], 0,
    and also 0.0 and the empty list and dictionary), both return the
    required-name tool result with [isError] true, and leave the state as it
    was: no request is sent. *)
Theorem name_is_tested_by_truthiness args s :
  truthy (dict_get args "name" JNull) = false ->
  exists r,
    create_github_repository (JObj args) s = (Ok r, s)
    /\ delete_github_repository (JObj args) s = (Ok r, s)
    /\ r = name_required
    /\ is_error r = Some (JBool true).
Proof.
  intros H. exists name_required.
  rewrite (create_without_name _ _ H), (delete_without_name _ _ H). repeat split.
Qed.

Lemma known_code_not_invalid_params r :
  known_code r -> error_code r <> Some (JInt (-32602)).
Proof. intros [H | [H | [H | H]]]; rewrite H; discriminate. Qed.

(** C10: a tools/call request without [params], or whose [params] have no
    [name], gets the unknown-tool error, code -32601, with message
    "Unknown tool: None"; no response [main] ever prints has code -32602; and
    [params] without [arguments] are handled as [params] with an empty
    [arguments] object, which for a registered tool gives the required-name
    tool result, not a protocol error. *)
Theorem missing_name_is_unknown_tool :
  (forall fields s,
      lookup "method" fields = Some (JStr "tools/call") ->
      lookup "params" fields = None
      \/ (exists params, lookup "params" fields = Some (JObj params)
                         /\ lookup "name" params = None) ->
      handle_message (JObj fields) s =
        (Ok (error_response (dict_get fields "id" JNull) (-32601) "Unknown tool: None"), s))
  /\ (forall s, exists final out,
         main s = Finished final
         /\ stdout final = (stdout s ++ out)%list
         /\ Forall (fun r => error_code r <> Some (JInt (-32602))) out)
  /\ (forall params msg_id s,
         lookup "arguments" params = None ->
         handle_call_tool (JObj [("params", JObj params)]) msg_id s =
           handle_call_tool
             (JObj [("params", JObj (("arguments", JObj []) :: params))]) msg_id s)
  /\ (forall fields params tool s,
         lookup "method" fields = Some (JStr "tools/call") ->
         lookup "params" fields = Some (JObj params) ->
         lookup "name" params = Some (JStr tool) ->
         tool = "create_github_repository" \/ tool = "delete_github_repository" ->
         lookup "arguments" params = None ->
         handle_message (JObj fields) s =
           (Ok (result_response (dict_get fields "id" JNull) name_required), s)).
Proof.
  split; [| split; [| split]].
  - intros fields s Hm Hp. rewrite (handle_message_tools_call _ _ Hm).
    destruct Hp as [Hp | (params & Hp & Hn)].
    + rewrite (handle_call_tool_object fields [] _ _); [reflexivity |].
      unfold dict_get. now rewrite Hp.
    + rewrite (handle_call_tool_object fields params _ _);
        [| unfold dict_get; now rewrite Hp].
      assert (Nm : dict_get params "name" JNull = JNull)
        by (unfold dict_get; now rewrite Hn).
      unfold call_tool. rewrite Nm. reflexivity.
  - intros s. unfold main.
    destruct (main_loop_runs _ s (Nat.lt_succ_diag_r _)) as (final & out & F & _ & O & Em & _).
    exists final, out. repeat split; try assumption.
    apply (Forall_emitted_impl _ _
             (fun r H => known_code_not_invalid_params r (emitted_known_code r H)) Em).
  - intros params msg_id s Ha.
    rewrite (handle_call_tool_object [("params", JObj params)] params msg_id s eq_refl).
    rewrite (handle_call_tool_object
               [("params", JObj (("arguments", JObj []) :: params))]
               (("arguments", JObj []) :: params) msg_id s eq_refl).
    unfold call_tool, dict_get. simpl. rewrite Ha. reflexivity.
  - intros fields params tool s Hm Hp Hn Ht Ha.
    rewrite (handle_message_tools_call _ _ Hm).
    rewrite (handle_call_tool_object fields params _ _);
      [| unfold dict_get; now rewrite Hp].
    assert (Nm : dict_get params "name" JNull = JStr tool)
      by (unfold dict_get; now rewrite Hn).
    assert (Ar : dict_get params "arguments" (JObj []) = JObj [])
      by (unfold dict_get; now rewrite Ha).
    unfold call_tool. rewrite Nm, Ar.
    destruct Ht as [-> | ->]; simpl.
    + now rewrite (bind_ok _ _ _ _ _ (create_without_name [] _ eq_refl)).
    + now rewrite (bind_ok _ _ _ _ _ (delete_without_name [] _ eq_refl)).
Qed.

(** ** Further properties of the code *)

(** *** The tool executor, path by path *)

(** The request [delete_github_repository] ends with. *)
Definition deletion_call (username repo_name : json) : http_call :=
  DELETE (delete_url username repo_name) headers.

Definition deleted_text (repo_name : json) : string :=
  "✅ Successfully deleted GitHub repository '" ++ py_str repo_name ++ "'".

(** With a usable [name], [create_github_repository] sends its request
    whatever comes back, and returns a tool result. *)
Lemma create_sends args s :
  truthy (dict_get args "name" JNull) = true ->
  exists r w,
    create_github_repository (JObj args) s = (Ok r, after_call s w (creation_call args))
    /\ tool_result r.
Proof.
  intros Hname. unfold create_github_repository. run_monad.
  rewrite Hname. simpl. unfold send. fold (creation_call args).
  destruct (http (creation_call args) (world s)) as [[resp | e] w]; simpl.
  - destruct (status_code resp =? 201); simpl;
      destruct (response_json resp) as [[] | e]; simpl;
      eexists _, w; (split; [reflexivity | constructor]).
  - eexists _, w. split; [reflexivity | constructor].
Qed.

Lemma create_after_exception args s e w :
  truthy (dict_get args "name" JNull) = true ->
  http (creation_call args) (world s) = (Raise e, w) ->
  create_github_repository (JObj args) s =
    (Ok (tool_error ("❌ Error creating repository: " ++ exn_str e)),
     after_call s w (creation_call args)).
Proof.
  intros Hname Hhttp. unfold create_github_repository. run_monad.
  rewrite Hname. simpl. unfold send. fold (creation_call args). rewrite Hhttp.
  reflexivity.
Qed.

(** What [delete_github_repository] does once the lookup has answered. *)
Lemma delete_after_lookup args s resp w :
  truthy (dict_get args "name" JNull) = true ->
  http (GET user_url headers) (world s) = (Ok resp, w) ->
  status_code resp = 200 ->
  delete_github_repository (JObj args) s =
    let s1 := after_call s w (GET user_url headers) in
    match response_json resp with
    | Ok (JObj body) =>
        let c := deletion_call (dict_get body "login" JNull) (dict_get args "name" JNull) in
        match http c w with
        | (Ok resp2, w2) =>
            (Ok (if status_code resp2 =? 204
                 then tool_ok (deleted_text (dict_get args "name" JNull))
                 else match response_json resp2 with
                      | Ok (JObj body2) =>
                          tool_error (failure_text "delete"
                                        (dict_get body2 "message" (JStr "Unknown error"))
                                        (status_code resp2))
                      | Ok v => tool_error ("❌ Error deleting repository: "
                                              ++ exn_str (no_attribute v "get"))
                      | Raise e => tool_error ("❌ Error deleting repository: " ++ exn_str e)
                      end),
             after_call s1 w2 c)
        | (Raise e, w2) =>
            (Ok (tool_error ("❌ Error deleting repository: " ++ exn_str e)),
             after_call s1 w2 c)
        end
    | Ok v => (Ok (tool_error ("❌ Error deleting repository: "
                                 ++ exn_str (no_attribute v "get"))), s1)
    | Raise e => (Ok (tool_error ("❌ Error deleting repository: " ++ exn_str e)), s1)
    end.
Proof.
  intros Hname Hhttp Hcode. unfold delete_github_repository. run_monad.
  rewrite Hname. simpl. unfold send at 1. rewrite Hhttp, Hcode. simpl.
  destruct (response_json resp) as [[] | e]; simpl; try reflexivity.
  unfold send, deletion_call. simpl.
  destruct (http _ w) as [[resp2 | e2] w2]; simpl; [| reflexivity].
  destruct (status_code resp2 =? 204); simpl; [reflexivity |].
  destruct (response_json resp2) as [[] | e]; reflexivity.
Qed.

Lemma delete_after_exception args s e w :
  truthy (dict_get args "name" JNull) = true ->
  http (GET user_url headers) (world s) = (Raise e, w) ->
  delete_github_repository (JObj args) s =
    (Ok (tool_error ("❌ Error deleting repository: " ++ exn_str e)),
     after_call s w (GET user_url headers)).
Proof.
  intros Hname Hhttp. unfold delete_github_repository. run_monad.
  rewrite Hname. simpl. unfold send. rewrite Hhttp. reflexivity.
Qed.

Lemma not_object_raises v :
  is_object v = false -> forall k default s,
  py_get v k default s = (Raise (no_attribute v "get"), s).
Proof. destruct v; simpl; intros H; try discriminate; reflexivity. Qed.

Lemma calls_after_call s w c : calls (after_call s w c) = (calls s ++ [c])%list.
Proof. reflexivity. Qed.

(** X6: [create_github_repository] always returns a tool result, and sends
    either nothing or exactly one request, the creation request built from
    its arguments. *)
Theorem create_sends_at_most_one_request arguments s :
  exists r s' new_calls,
    create_github_repository arguments s = (Ok r, s')
    /\ tool_result r
    /\ calls s' = (calls s ++ new_calls)%list
    /\ (new_calls = []
        \/ exists args, arguments = JObj args /\ new_calls = [creation_call args]).
Proof.
  destruct (is_object arguments) eqn:Obj.
  - destruct arguments as [| | | | | | args]; try discriminate Obj.
    destruct (truthy (dict_get args "name" JNull)) eqn:Hname.
    + destruct (create_sends args s Hname) as (r & w & E & T).
      exists r, (after_call s w (creation_call args)), [creation_call args].
      repeat split; try assumption. right. now exists args.
    + exists name_required, s, []. rewrite (create_without_name _ _ Hname), app_nil_r.
      repeat split; [constructor | now left].
  - eexists _, s, []. unfold create_github_repository, try_except, bind.
    rewrite (not_object_raises _ Obj), app_nil_r.
    split; [reflexivity |]. split; [constructor |]. split; [reflexivity | now left].
Qed.

(** X7: the creation request goes to the user's repository collection with
    the token in the [Authorization] header.  Its payload holds [name] as
    given (whatever its type), [private] (False unless given), [auto_init]
    (True unless given), [description] exactly when the arguments have one,
    and nothing else: other arguments are not forwarded. *)
Theorem creation_request_shape args :
  exists payload,
    creation_call args =
      POST "https://api.github.com/user/repos" (JObj payload)
           [("Authorization", "token " ++ GITHUB_TOKEN);
            ("Accept", "application/vnd.github+json")]
    /\ lookup "name" payload = Some (dict_get args "name" JNull)
    /\ lookup "private" payload = Some (dict_get args "private" (JBool false))
    /\ lookup "auto_init" payload = Some (dict_get args "auto_init" (JBool true))
    /\ lookup "description" payload = lookup "description" args
    /\ forall k, In k (map fst payload) ->
                 In k ["name"; "private"; "auto_init"; "description"].
Proof.
  unfold creation_call, creation_payload, has_key, item, dict_has, dict_get.
  destruct (lookup "description" args) as [d |]; eexists;
    (split; [reflexivity |]); repeat split; simpl; intros k H; tauto.
Qed.

(** X8: [create_github_repository] reports success (a result without
    [isError]) only when it sent the creation request, the answer had status
    201, and its body decoded to an object. *)
Theorem create_success_needs_201 arguments s r s' :
  create_github_repository arguments s = (Ok r, s') ->
  is_error r = None ->
  exists args resp body,
    arguments = JObj args
    /\ http (creation_call args) (world s) = (Ok resp, world s')
    /\ status_code resp = 201
    /\ response_json resp = Ok (JObj body)
    /\ calls s' = (calls s ++ [creation_call args])%list.
Proof.
  destruct (is_object arguments) eqn:Obj.
  2:{ unfold create_github_repository, try_except, bind.
      rewrite (not_object_raises _ Obj). intros [= <- <-]. discriminate. }
  destruct arguments as [| | | | | | args]; try discriminate Obj.
  destruct (truthy (dict_get args "name" JNull)) eqn:Hname.
  2:{ rewrite (create_without_name _ _ Hname). intros [= <- <-]. discriminate. }
  destruct (http (creation_call args) (world s)) as [[resp | e] w] eqn:Hhttp.
  2:{ rewrite (create_after_exception _ _ _ _ Hname Hhttp). intros [= <- <-]. discriminate. }
  rewrite (create_after_response _ _ _ _ Hname Hhttp).
  destruct (status_code resp =? 201) eqn:Hcode.
  - apply Z.eqb_eq in Hcode.
    destruct (response_json resp) as [[| | | | | | body] | e] eqn:Hbody;
      intros [= <- <-]; try discriminate.
    intros _. exists args, resp, body. repeat split; assumption.
  - destruct (response_json resp) as [[] | e]; intros [= <- <-]; discriminate.
Qed.

(** X9: when the creation request itself raises (no answer at all), the
    exception's text comes back as a tool result with [isError] true; the
    attempt is the only request made. *)
Theorem create_reports_transport_exception args s e w :
  truthy (dict_get args "name" JNull) = true ->
  http (creation_call args) (world s) = (Raise e, w) ->
  exists r s',
    create_github_repository (JObj args) s = (Ok r, s')
    /\ result_text r = Some ("❌ Error creating repository: " ++ exn_str e)
    /\ is_error r = Some (JBool true)
    /\ calls s' = (calls s ++ [creation_call args])%list.
Proof.
  intros Hname Hhttp. rewrite (create_after_exception _ _ _ _ Hname Hhttp).
  eexists _, _. split; [reflexivity |]. repeat split.
Qed.

(** X10: arguments that are no object (an array, a string, a number, null)
    make both tools return the text of the [AttributeError] as a tool result
    with [isError] true, without any request. *)
Theorem tools_reject_non_object_arguments arguments s :
  is_object arguments = false ->
  exists text,
    text = "'" ++ type_name arguments ++ "' object has no attribute 'get'"
    /\ create_github_repository arguments s =
         (Ok (tool_error ("❌ Error creating repository: " ++ text)), s)
    /\ delete_github_repository arguments s =
         (Ok (tool_error ("❌ Error deleting repository: " ++ text)), s).
Proof.
  intros Obj. eexists. split; [reflexivity |].
  unfold create_github_repository, delete_github_repository, try_except, bind.
  rewrite !(not_object_raises _ Obj). split; reflexivity.
Qed.

(** X11: [delete_github_repository] always returns a tool result.  It sends
    nothing, or the user lookup alone, or the lookup followed by one deletion
    request: never a deletion without a lookup before it, and never a
    creation request. *)
Theorem delete_sends_lookup_then_deletion arguments s :
  exists r s' new_calls,
    delete_github_repository arguments s = (Ok r, s')
    /\ tool_result r
    /\ calls s' = (calls s ++ new_calls)%list
    /\ (new_calls = []
        \/ new_calls = [GET user_url headers]
        \/ exists username repo_name,
             new_calls = [GET user_url headers; deletion_call username repo_name]).
Proof.
  destruct (is_object arguments) eqn:Obj.
  2:{ eexists _, s, []. unfold delete_github_repository, try_except, bind.
      rewrite (not_object_raises _ Obj), app_nil_r.
      split; [reflexivity |]. split; [constructor |]. split; [reflexivity | now left]. }
  destruct arguments as [| | | | | | args]; try discriminate Obj.
  destruct (truthy (dict_get args "name" JNull)) eqn:Hname.
  2:{ exists name_required, s, []. rewrite (delete_without_name _ _ Hname), app_nil_r.
      repeat split; [constructor | now left]. }
  destruct (http (GET user_url headers) (world s)) as [[resp | e] w] eqn:Hhttp.
  2:{ rewrite (delete_after_exception _ _ _ _ Hname Hhttp).
      eexists _, _, [GET user_url headers].
      split; [reflexivity |]. split; [constructor |]. split; [reflexivity | auto]. }
  destruct (Z.eq_dec (status_code resp) 200) as [Hcode | Hcode].
  2:{ rewrite (delete_after_failed_lookup _ _ _ _ Hname Hhttp Hcode).
      eexists _, _, [GET user_url headers].
      split; [reflexivity |]. split; [constructor |]. split; [reflexivity | auto]. }
  rewrite (delete_after_lookup _ _ _ _ Hname Hhttp Hcode). cbv zeta.
  destruct (response_json resp) as [[| | | | | | body] | e];
    try (eexists _, _, [GET user_url headers];
         split; [reflexivity |]; split; [constructor |]; split; [reflexivity | auto]).
  destruct (http _ w) as [[resp2 | e2] w2].
  - eexists _, _, [GET user_url headers; deletion_call _ _].
    split; [reflexivity |]. split.
    + destruct (status_code resp2 =? 204); [constructor |].
      destruct (response_json resp2) as [[] | e]; constructor.
    + split; [simpl; now rewrite <- app_assoc |]. right. right. eauto.
  - eexists _, _, [GET user_url headers; deletion_call _ _].
    split; [reflexivity |]. split; [constructor |].
    split; [simpl; now rewrite <- app_assoc |]. right. right. eauto.
Qed.

(** X12: with a usable [name], a lookup answered with 200 and an object, and
    a deletion answered with 204, the tool result is the success text naming
    the repository, without [isError].  The deletion goes to
    https://api.github.com/repos/<login>/<name>, and the body of the 204
    answer is never decoded. *)
Theorem delete_reports_success args s resp w body resp2 w2 :
  truthy (dict_get args "name" JNull) = true ->
  http (GET user_url headers) (world s) = (Ok resp, w) ->
  status_code resp = 200 ->
  response_json resp = Ok (JObj body) ->
  http (DELETE ("https://api.github.com/repos/"
                  ++ py_str (dict_get body "login" JNull) ++ "/"
                  ++ py_str (dict_get args "name" JNull)) headers) w = (Ok resp2, w2) ->
  status_code resp2 = 204 ->
  exists r s',
    delete_github_repository (JObj args) s = (Ok r, s')
    /\ result_text r =
         Some ("✅ Successfully deleted GitHub repository '"
                 ++ py_str (dict_get args "name" JNull) ++ "'")
    /\ is_error r = None
    /\ world s' = w2
    /\ calls s' =
         (calls s ++ [GET user_url headers;
                      DELETE ("https://api.github.com/repos/"
                                ++ py_str (dict_get body "login" JNull) ++ "/"
                                ++ py_str (dict_get args "name" JNull)) headers])%list.
Proof.
  intros Hname Hhttp Hcode Hbody Hdel Hcode2.
  rewrite (delete_after_lookup _ _ _ _ Hname Hhttp Hcode), Hbody. cbv zeta.
  unfold deletion_call, delete_url. rewrite Hdel, Hcode2. simpl.
  eexists _, _. split; [reflexivity |]. split; [reflexivity |].
  split; [reflexivity |]. split; [reflexivity |].
  unfold after_call. simpl. now rewrite <- app_assoc.
Qed.

(** X13: [delete_github_repository] reports success (a result without
    [isError]) only when the lookup was answered with 200 and an object, and
    the deletion request that followed was answered with 204. *)
Theorem delete_success_needs_200_and_204 arguments s r s' :
  delete_github_repository arguments s = (Ok r, s') ->
  is_error r = None ->
  exists args resp w body resp2,
    arguments = JObj args
    /\ http (GET user_url headers) (world s) = (Ok resp, w)
    /\ status_code resp = 200
    /\ response_json resp = Ok (JObj body)
    /\ http (deletion_call (dict_get body "login" JNull) (dict_get args "name" JNull)) w
         = (Ok resp2, world s')
    /\ status_code resp2 = 204.
Proof.
  destruct (is_object arguments) eqn:Obj.
  2:{ unfold delete_github_repository, try_except, bind.
      rewrite (not_object_raises _ Obj). intros [= <- <-]. discriminate. }
  destruct arguments as [| | | | | | args]; try discriminate Obj.
  destruct (truthy (dict_get args "name" JNull)) eqn:Hname.
  2:{ rewrite (delete_without_name _ _ Hname). intros [= <- <-]. discriminate. }
  destruct (http (GET user_url headers) (world s)) as [[resp | e] w] eqn:Hhttp.
  2:{ rewrite (delete_after_exception _ _ _ _ Hname Hhttp). intros [= <- <-]. discriminate. }
  destruct (Z.eq_dec (status_code resp) 200) as [Hcode | Hcode].
  2:{ rewrite (delete_after_failed_lookup _ _ _ _ Hname Hhttp Hcode).
      intros [= <- <-]. discriminate. }
  rewrite (delete_after_lookup _ _ _ _ Hname Hhttp Hcode). cbv zeta.
  destruct (response_json resp) as [[| | | | | | body] | e] eqn:Hbody;
    try (intros [= <- <-]; discriminate).
  destruct (http _ w) as [[resp2 | e2] w2] eqn:Hdel;
    [| intros [= <- <-]; discriminate].
  destruct (status_code resp2 =? 204) eqn:Hcode2.
  - apply Z.eqb_eq in Hcode2. intros [= <- <-] _.
    exists args, resp, w, body, resp2. repeat split; assumption.
  - destruct (response_json resp2) as [[] | e]; intros [= <- <-]; discriminate.
Qed.

(** X14: when the deletion request is answered with a status other than 204,
    the tool result has [isError] true.  If the body decodes to an object, the
    text is "❌ Failed to delete repository: <message> (Status: <code>)", with
    "Unknown error" for a missing [message]; otherwise it is
    "❌ Error deleting repository: " followed by the exception's text. *)
Theorem delete_failure_text args s resp w body resp2 w2 :
  truthy (dict_get args "name" JNull) = true ->
  http (GET user_url headers) (world s) = (Ok resp, w) ->
  status_code resp = 200 ->
  response_json resp = Ok (JObj body) ->
  http (deletion_call (dict_get body "login" JNull) (dict_get args "name" JNull)) w
    = (Ok resp2, w2) ->
  status_code resp2 <> 204 ->
  exists r s',
    delete_github_repository (JObj args) s = (Ok r, s')
    /\ is_error r = Some (JBool true)
    /\ result_text r =
         Some (match response_json resp2 with
               | Ok (JObj body2) =>
                   "❌ Failed to delete repository: "
                     ++ py_str (dict_get body2 "message" (JStr "Unknown error"))
                     ++ " (Status: " ++ str_of_int (status_code resp2) ++ ")"
               | Ok v =>
                   "❌ Error deleting repository: '" ++ type_name v
                     ++ "' object has no attribute 'get'"
               | Raise e => "❌ Error deleting repository: " ++ exn_str e
               end).
Proof.
  intros Hname Hhttp Hcode Hbody Hdel Hcode2.
  rewrite (delete_after_lookup _ _ _ _ Hname Hhttp Hcode), Hbody. cbv zeta.
  rewrite Hdel. apply Z.eqb_neq in Hcode2. rewrite Hcode2.
  destruct (response_json resp2) as [[] | e];
    eexists _, _; (split; [reflexivity | split; reflexivity]).
Qed.

(** X15: a lookup answered with 200 and an object without [login] does not
    stop the deletion: the request goes to the path whose owner is the text
    None. *)
Theorem delete_without_login_uses_None args s resp w body :
  truthy (dict_get args "name" JNull) = true ->
  http (GET user_url headers) (world s) = (Ok resp, w) ->
  status_code resp = 200 ->
  response_json resp = Ok (JObj body) ->
  lookup "login" body = None ->
  exists r s',
    delete_github_repository (JObj args) s = (Ok r, s')
    /\ calls s' =
         (calls s ++ [GET user_url headers;
                      DELETE ("https://api.github.com/repos/None/"
                                ++ py_str (dict_get args "name" JNull)) headers])%list.
Proof.
  intros Hname Hhttp Hcode Hbody Hlogin.
  rewrite (delete_after_lookup _ _ _ _ Hname Hhttp Hcode), Hbody. cbv zeta.
  assert (L : dict_get body "login" JNull = JNull) by (unfold dict_get; now rewrite Hlogin).
  rewrite L. unfold deletion_call, delete_url. simpl py_str.
  destruct (http _ w) as [[resp2 | e2] w2];
    eexists _, _; (split; [reflexivity |]); simpl; now rewrite <- app_assoc.
Qed.

(** X16: a lookup answered with 200 whose body does not decode, or decodes to
    something else than an object, ends the operation: the exception's text
    comes back with [isError] true, and no deletion request is sent. *)
Theorem delete_aborts_on_undecodable_lookup args s resp w :
  truthy (dict_get args "name" JNull) = true ->
  http (GET user_url headers) (world s) = (Ok resp, w) ->
  status_code resp = 200 ->
  (forall body, response_json resp <> Ok (JObj body)) ->
  exists r s',
    delete_github_repository (JObj args) s = (Ok r, s')
    /\ is_error r = Some (JBool true)
    /\ result_text r =
         Some ("❌ Error deleting repository: "
                 ++ match response_json resp with
                    | Ok v => "'" ++ type_name v ++ "' object has no attribute 'get'"
                    | Raise e => exn_str e
                    end)
    /\ calls s' = (calls s ++ [GET user_url headers])%list.
Proof.
  intros Hname Hhttp Hcode Hbody.
  rewrite (delete_after_lookup _ _ _ _ Hname Hhttp Hcode). cbv zeta.
  destruct (response_json resp) as [[| | | | | | body] | e];
    try (eexists _, _; split; [reflexivity |]; repeat split).
  now elim (Hbody body).
Qed.

(** X17: when a request of [delete_github_repository] itself raises, the
    exception's text comes back as a tool result with [isError] true; a lookup
    that raises is not followed by a deletion request. *)
Theorem delete_reports_transport_exception args s e w :
  truthy (dict_get args "name" JNull) = true ->
  http (GET user_url headers) (world s) = (Raise e, w) ->
  exists r s',
    delete_github_repository (JObj args) s = (Ok r, s')
    /\ result_text r = Some ("❌ Error deleting repository: " ++ exn_str e)
    /\ is_error r = Some (JBool true)
    /\ calls s' = (calls s ++ [GET user_url headers])%list.
Proof.
  intros Hname Hhttp. rewrite (delete_after_exception _ _ _ _ Hname Hhttp).
  eexists _, _. split; [reflexivity |]. repeat split.
Qed.

(** *** The dispatcher and the catalog *)

(** The names of the tools a tools/list response advertises. *)
Definition tool_names (response : json) : list json :=
  match result_of response with
  | Some (JObj result) =>
      match lookup "tools" result with
      | Some (JArr tools) => map (fun tool => item tool "name") tools
      | _ => []
      end
  | _ => []
  end.

(** The default a tools/list response advertises for a property of a tool. *)
Definition advertised_default (response : json) (tool property : string) : option json :=
  match result_of response with
  | Some (JObj result) =>
      match lookup "tools" result with
      | Some (JArr tools) =>
          match filter (fun t => eq_str (item t "name") tool) tools with
          | t :: _ =>
              match item (item (item t "inputSchema") "properties") property with
              | JObj schema => lookup "default" schema
              | _ => None
              end
          | [] => None
          end
      | _ => None
      end
  | _ => None
  end.

Lemma eq_str_true v lit : eq_str v lit = true <-> v = JStr lit.
Proof.
  split.
  - destruct v; simpl; try discriminate. intros H. apply String.eqb_eq in H. now subst.
  - intros ->. simpl. apply String.eqb_refl.
Qed.

Lemma non_call_message fields s :
  eq_str (dict_get fields "method" JNull) "tools/call" = false ->
  exists r,
    handle_message (JObj fields) s = (Ok r, s)
    /\ response_id r = Some (dict_get fields "id" JNull)
    /\ emitted r.
Proof.
  intros H. rewrite handle_message_object. cbv zeta. rewrite H.
  destruct (eq_str _ "initialize"); [| destruct (eq_str _ "tools/list")];
    eexists; (split; [reflexivity |]); (split; [reflexivity |]); constructor.
Qed.

(** X1: only a tools/call request can reach the hosting API.  Any other
    message that is an object (initialize, tools/list, an unknown or missing
    method) is answered at once with its [id] echoed, [None] when it has
    none, and the state is left as it was. *)
Theorem only_tool_calls_touch_the_state fields s :
  eq_str (dict_get fields "method" JNull) "tools/call" = false ->
  exists r,
    handle_message (JObj fields) s = (Ok r, s)
    /\ response_id r = Some (dict_get fields "id" JNull)
    /\ result_xor_error r.
Proof.
  intros H. destruct (non_call_message fields s H) as (r & E & Id & Em).
  exists r. split; [exact E |]. split; [exact Id |].
  now apply emitted_result_xor_error.
Qed.

(** X2: a method that is none of initialize, tools/list and tools/call gets
    the error with code -32601 and message "Method not found: " followed by
    [str] of the method: None when the message has no method, and the
    [repr] of a number, array or object given as method. *)
Theorem unknown_method_is_not_found fields s :
  eq_str (dict_get fields "method" JNull) "initialize" = false ->
  eq_str (dict_get fields "method" JNull) "tools/list" = false ->
  eq_str (dict_get fields "method" JNull) "tools/call" = false ->
  exists r,
    handle_message (JObj fields) s = (Ok r, s)
    /\ error_code r = Some (JInt (-32601))
    /\ error_message r =
         Some (JStr ("Method not found: "
                       ++ match lookup "method" fields with
                          | None => "None"
                          | Some method => py_str method
                          end))
    /\ result_of r = None.
Proof.
  intros H1 H2 H3. rewrite handle_message_object. cbv zeta. rewrite H1, H2, H3.
  eexists. split; [reflexivity |]. split; [reflexivity |]. split; [| reflexivity].
  unfold dict_get. destruct (lookup "method" fields); reflexivity.
Qed.

(** X3: a line that decodes to something else than an object (an array, a
    string, a number, true, false, null) makes the loop print the internal
    error, code -32603, naming the type that has no [get]; the response has no
    [id], nothing is sent to the hosting API, and the loop goes on. *)
Theorem non_object_message_gets_internal_error s line rest message :
  readline (stdin s) = (line, rest) -> line <> "" ->
  json_loads (py_strip line) = Ok message ->
  is_object message = false ->
  exists r,
    r = anonymous_error (-32603)
          ("Internal error: '" ++ type_name message ++ "' object has no attribute 'get'")
    /\ loop_body s = (Ok false, printed (consumed s rest) r)
    /\ response_id r = None
    /\ main s = main (printed (consumed s rest) r).
Proof.
  intros R N L Obj. eexists. split; [reflexivity |].
  assert (B : loop_body s =
              (Ok false, printed (consumed s rest)
                 (anonymous_error (-32603)
                    ("Internal error: '" ++ type_name message
                       ++ "' object has no attribute 'get'")))).
  { rewrite (loop_body_line s line rest R N), L.
    unfold handle_message, bind. rewrite (not_object_raises _ Obj). reflexivity. }
  split; [exact B |]. split; [reflexivity |].
  apply (main_after_turn s line rest _ R N B). reflexivity.
Qed.

(** X4: a tools/call request naming one of the two tools always gets a
    response with a [result] that is a tool result, never a protocol error,
    whatever the arguments are and whatever the hosting API does; the [id] is
    echoed. *)
Theorem registered_tool_always_gets_result fields params tool s :
  lookup "method" fields = Some (JStr "tools/call") ->
  lookup "params" fields = Some (JObj params) ->
  lookup "name" params = Some (JStr tool) ->
  tool = "create_github_repository" \/ tool = "delete_github_repository" ->
  exists r s' result,
    handle_message (JObj fields) s = (Ok r, s')
    /\ r = result_response (dict_get fields "id" JNull) result
    /\ tool_result result
    /\ result_of r = Some result
    /\ error_of r = None.
Proof.
  intros Hm Hp Hn Ht. rewrite (handle_message_tools_call _ _ Hm).
  rewrite (handle_call_tool_object fields params _ _);
    [| unfold dict_get; now rewrite Hp].
  assert (Nm : dict_get params "name" JNull = JStr tool)
    by (unfold dict_get; now rewrite Hn).
  unfold call_tool. rewrite Nm.
  destruct Ht as [-> | ->]; simpl.
  - destruct (create_returns (dict_get params "arguments" (JObj [])) s)
      as (res & s' & E & T & _).
    rewrite (bind_ok _ _ _ _ _ E). exists (result_response (dict_get fields "id" JNull) res), s', res.
    repeat split. exact T.
  - destruct (delete_returns (dict_get params "arguments" (JObj [])) s)
      as (res & s' & E & T & _).
    rewrite (bind_ok _ _ _ _ _ E). exists (result_response (dict_get fields "id" JNull) res), s', res.
    repeat split. exact T.
Qed.

(** X5: the catalog and the dispatcher agree.  A tools/call request is
    answered with a result, and not with the unknown-tool error, exactly when
    the name it gives is one of those tools/list advertises. *)
Theorem listed_tools_are_the_callable_ones fields params tool_name msg_id s :
  lookup "method" fields = Some (JStr "tools/call") ->
  lookup "params" fields = Some (JObj params) ->
  lookup "name" params = Some tool_name ->
  In tool_name (tool_names (handle_list_tools msg_id))
  <-> exists r s', handle_message (JObj fields) s = (Ok r, s') /\ error_of r = None.
Proof.
  intros Hm Hp Hn. rewrite (handle_message_tools_call _ _ Hm).
  rewrite (handle_call_tool_object fields params _ _);
    [| unfold dict_get; now rewrite Hp].
  assert (Nm : dict_get params "name" JNull = tool_name)
    by (unfold dict_get; now rewrite Hn).
  unfold call_tool. rewrite Nm. simpl tool_names.
  destruct (eq_str tool_name "create_github_repository") eqn:Ec.
  - apply eq_str_true in Ec. split; [intros _ | intros _; left; now symmetry].
    destruct (create_returns (dict_get params "arguments" (JObj [])) s)
      as (res & s' & E & _).
    rewrite (bind_ok _ _ _ _ _ E). eexists _, s'. split; reflexivity.
  - destruct (eq_str tool_name "delete_github_repository") eqn:Ed.
    + apply eq_str_true in Ed. split; [intros _ | intros _; right; left; now symmetry].
      destruct (delete_returns (dict_get params "arguments" (JObj [])) s)
        as (res & s' & E & _).
      rewrite (bind_ok _ _ _ _ _ E). eexists _, s'. split; reflexivity.
    + split.
      * intros [<- | [<- | []]]; simpl in *; discriminate.
      * intros (r & s' & [= <- <-] & H). discriminate H.
Qed.

(** X18: the defaults tools/list advertises for [private] and [auto_init]
    are the ones the creation request carries when the arguments leave them
    out. *)
Theorem advertised_defaults_are_applied args msg_id :
  lookup "private" args = None ->
  lookup "auto_init" args = None ->
  exists payload request_headers,
    creation_call args = POST GITHUB_API_URL (JObj payload) request_headers
    /\ lookup "private" payload =
         advertised_default (handle_list_tools msg_id) "create_github_repository" "private"
    /\ lookup "auto_init" payload =
         advertised_default (handle_list_tools msg_id) "create_github_repository" "auto_init".
Proof.
  intros Hp Ha. unfold creation_call, creation_payload, dict_get. rewrite Hp, Ha.
  eexists _, _. split; [reflexivity |].
  destruct (has_key (JObj args) "description"); split; reflexivity.
Qed.

(** *** The loop on an input in two parts *)

(** The computation does not look at what is left on standard input, and
    leaves it alone. *)
Definition stdin_blind {A} (m : M A) : Prop :=
  forall s input, m (consumed s input) = (fst (m s), consumed (snd (m s)) input).

(** The input is empty or ends with a line feed: no line is cut short. *)
Fixpoint complete (input : string) : bool :=
  match input with
  | EmptyString => true
  | String c rest =>
      match rest with
      | EmptyString => Ascii.eqb c (ascii_of_nat 10)
      | _ => complete rest
      end
  end.

Lemma ret_blind {A} (a : A) : stdin_blind (ret a).
Proof. intros s input. reflexivity. Qed.

Lemma raise_blind {A} (e : exn) : stdin_blind (@raise A e).
Proof. intros s input. reflexivity. Qed.

Lemma lift_blind {A} (o : outcome A) : stdin_blind (lift o).
Proof. intros s input. reflexivity. Qed.

Lemma py_get_blind v k default : stdin_blind (py_get v k default).
Proof. destruct v; intros st input; reflexivity. Qed.

Lemma send_blind c : stdin_blind (send c).
Proof.
  intros s input. unfold send. simpl.
  destruct (http c (world s)) as [r w]. reflexivity.
Qed.

Lemma bind_blind {A B} (m : M A) (k : A -> M B) :
  stdin_blind m -> (forall a, stdin_blind (k a)) -> stdin_blind (bind m k).
Proof.
  intros Hm Hk s input. unfold bind. rewrite Hm.
  destruct (m s) as [[a | e] s']; simpl; [apply Hk | reflexivity].
Qed.

Lemma try_except_blind {A} (m : M A) (h : exn -> M A) :
  stdin_blind m -> (forall e, stdin_blind (h e)) -> stdin_blind (try_except m h).
Proof.
  intros Hm Hh s input. unfold try_except. rewrite Hm.
  destruct (m s) as [[a | e] s']; simpl; [reflexivity | apply Hh].
Qed.

Ltac blind :=
  repeat first
    [ apply ret_blind | apply raise_blind | apply lift_blind | apply py_get_blind
    | apply send_blind | apply try_except_blind | apply bind_blind
    | match goal with
      | |- forall _, _ => intro
      | |- stdin_blind (if ?b then _ else _) => destruct b
      | |- stdin_blind (let _ := _ in _) => cbv zeta
      end ].

Lemma create_blind arguments : stdin_blind (create_github_repository arguments).
Proof. unfold create_github_repository. blind. Qed.

Lemma delete_blind arguments : stdin_blind (delete_github_repository arguments).
Proof. unfold delete_github_repository. blind. Qed.

Lemma handle_message_blind message : stdin_blind (handle_message message).
Proof.
  unfold handle_message, handle_call_tool. blind;
    first [ apply create_blind | apply delete_blind ].
Qed.

Lemma consumed_consumed s a b : consumed (consumed s a) b = consumed s b.
Proof. reflexivity. Qed.

Lemma consumed_stdin s : consumed s (stdin s) = s.
Proof. destruct s; reflexivity. Qed.

(** The state a turn on [line] leads to does not depend on what follows the
    line on standard input. *)
Lemma loop_body_blind s line :
  line <> "" ->
  exists s1, forall input rest,
    readline input = (line, rest) ->
    loop_body (consumed s input) = (Ok false, consumed s1 rest).
Proof.
  intros N.
  exists (match json_loads (py_strip line) with
          | Raise e => printed s (loop_error e)
          | Ok message =>
              match handle_message message s with
              | (Ok r, s') => printed s' r
              | (Raise e, s') => printed s' (loop_error e)
              end
          end).
  intros input rest R.
  rewrite (loop_body_line (consumed s input) line rest R N), consumed_consumed.
  destruct (json_loads (py_strip line)) as [message | e]; [| reflexivity].
  rewrite handle_message_blind.
  destruct (handle_message message s) as [[r | e] s']; reflexivity.
Qed.

Lemma readline_app a b :
  complete a = true -> a <> "" ->
  readline (a ++ b) = (fst (readline a), snd (readline a) ++ b)
  /\ complete (snd (readline a)) = true.
Proof.
  induction a as [| c a IH]; intros C N; [now elim N |]. simpl.
  destruct (Ascii.eqb c (ascii_of_nat 10)) eqn:E.
  - split; [reflexivity |]. simpl. simpl in C. destruct a; [reflexivity | exact C].
  - simpl in C. destruct a as [| c' a']; [congruence |].
    destruct (IH C ltac:(discriminate)) as [R C'].
    rewrite R. destruct (readline (String c' a')) as [l r]. split; [reflexivity | exact C'].
Qed.

Lemma main_eof s : stdin s = "" -> main s = Finished s.
Proof.
  intros H. unfold main. rewrite H. cbn [String.length main_loop].
  now rewrite (loop_body_eof s H).
Qed.

Lemma main_in_two_parts n : forall s a b,
  (String.length a <= n)%nat -> complete a = true ->
  exists mid,
    main (consumed s a) = Finished mid
    /\ main (consumed s (a ++ b)) = main (consumed mid b).
Proof.
  induction n as [| n IH]; intros s a b L C.
  - destruct a; [| simpl in L; lia].
    exists (consumed s ""). split; [| reflexivity].
    now apply main_eof.
  - destruct (string_dec a "") as [-> | N].
    + exists (consumed s ""). split; [| reflexivity].
      now apply main_eof.
    + destruct (readline_app a b C N) as [Rab Crest].
      destruct (readline a) as [line rest] eqn:Ra. simpl in Rab, Crest.
      assert (Nl : line <> "").
      { intros ->. apply N. apply readline_empty. now rewrite Ra. }
      destruct (loop_body_blind s line Nl) as (s1 & Turn).
      pose proof (readline_shorter _ _ _ Ra Nl) as Sh.
      destruct (IH s1 rest b ltac:(lia) Crest) as (mid & Fin & Two).
      exists mid. split.
      * rewrite <- Fin.
        apply (main_after_turn (consumed s a) line rest _ Ra Nl (Turn a rest Ra)).
        reflexivity.
      * rewrite <- Two.
        apply (main_after_turn (consumed s (a ++ b)) line (rest ++ b) _ Rab Nl
                 (Turn (a ++ b) (rest ++ b) Rab)).
        reflexivity.
Qed.

(** X19: the loop is sequential.  When the input is [a] followed by [b] and
    [a] ends on a line boundary, running [main] on the whole is running it on
    [a], then on [b] from the state that run ended in: the responses to [b]
    follow those to [a], and depend on [a] only through the hosting API. *)
Theorem main_is_sequential s a b :
  complete a = true ->
  exists mid,
    main (consumed s a) = Finished mid
    /\ stdin mid = ""
    /\ main (consumed s (a ++ b)) = main (consumed mid b).
Proof.
  intros C. destruct (main_in_two_parts (String.length a) s a b (le_n _) C)
    as (mid & Fin & Two).
  exists mid. split; [exact Fin |]. split; [| exact Two].
  unfold main in Fin.
  destruct (main_loop_runs _ (consumed s a) (Nat.lt_succ_diag_r _))
    as (final & out & F & I & _).
  rewrite F in Fin. injection Fin as <-. exact I.
Qed.




End Server.

Arguments mkState {World} stdin stdout world calls.
Arguments stdin {World} s.
Arguments stdout {World} s.
Arguments world {World} s.
Arguments calls {World} s.
Arguments consumed {World} s rest.
Arguments printed {World} s r.
Arguments after_call {World} s w c.
Arguments Finished {World} s.

(** ** A concrete setting

    Stand-ins for the runtime and for the hosting API, to run the server on
    concrete inputs: [repr] of a string puts it between single quotes,
    [strip] and [json.loads] are given by their result on the one line that
    is read, and the API answers each kind of request with a fixed response. *)

Definition stub_float_repr (f : float) : string := "0.0".
Definition stub_str_repr (s : string) : string := "'" ++ s ++ "'".
Definition stub_strip (s : string) : string := s.
Definition stub_loads (decoded : outcome json) : string -> outcome json :=
  fun _ => decoded.
Definition stub_token : string := "ghp_example".

Definition stub_api (creation lookup deletion : http_response)
    : http_call -> unit -> outcome http_response * unit :=
  fun c w =>
    match c with
    | POST _ _ _ => (Ok creation, w)
    | GET _ _ => (Ok lookup, w)
    | DELETE _ _ => (Ok deletion, w)
    end.

Definition no_body : outcome json :=
  Raise (mkExn JSONDecodeError "Expecting value: line 1 column 1 (char 0)").

Definition created_body : json :=
  JObj [("html_url", JStr "https://github.com/octo/demo");
        ("clone_url", JStr "https://github.com/octo/demo.git")].

Definition api_ok : http_call -> unit -> outcome http_response * unit :=
  stub_api (mkResponse 201 (Ok created_body))
           (mkResponse 200 (Ok (JObj [("login", JStr "octo")])))
           (mkResponse 204 no_body).

(** The API when the token is refused, and when a gateway answers for it. *)
Definition api_refusing : http_call -> unit -> outcome http_response * unit :=
  stub_api (mkResponse 422 (Ok (JObj [("message", JStr "Repository creation failed.")])))
           (mkResponse 401 (Ok (JObj [("message", JStr "Bad credentials")])))
           (mkResponse 404 (Ok (JObj [("message", JStr "Not Found")]))).

Definition api_gateway : http_call -> unit -> outcome http_response * unit :=
  stub_api (mkResponse 502 no_body) (mkResponse 502 no_body) (mkResponse 502 no_body).

Definition start (input : string) : state unit := mkState input [] tt [].

Definition one_line : string := "request" ++ nl.

Definition run_create (api : http_call -> unit -> outcome http_response * unit)
    (arguments : json) : outcome json * state unit :=
  create_github_repository stub_float_repr stub_str_repr stub_token unit api
                           arguments (start "").

Definition run_delete (api : http_call -> unit -> outcome http_response * unit)
    (arguments : json) : outcome json * state unit :=
  delete_github_repository stub_float_repr stub_str_repr stub_token unit api
                           arguments (start "").

Definition run_dispatch (message : json) : outcome json * state unit :=
  handle_message stub_float_repr stub_str_repr stub_token unit api_ok message (start "").

Definition run_turn (decoded : outcome json) : outcome bool * state unit :=
  loop_body stub_float_repr stub_str_repr stub_strip (stub_loads decoded)
            stub_token unit api_ok (start one_line).

Definition run_main (decoded : outcome json) : run unit :=
  main stub_float_repr stub_str_repr stub_strip (stub_loads decoded)
       stub_token unit api_ok (start one_line).

Definition list_request : list (string * json) :=
  [("jsonrpc", JStr "2.0"); ("id", JInt 7); ("method", JStr "tools/list")].

Definition positional_call : list (string * json) :=
  [("jsonrpc", JStr "2.0"); ("id", JInt 7); ("method", JStr "tools/call");
   ("params", JArr [JStr "create_github_repository"])].

Definition rename_call : list (string * json) :=
  [("jsonrpc", JStr "2.0"); ("id", JInt 3); ("method", JStr "tools/call");
   ("params", JObj [("name", JStr "rename_repository"); ("arguments", JObj [])])].

Definition bare_call : list (string * json) :=
  [("jsonrpc", JStr "2.0"); ("id", JInt 4); ("method", JStr "tools/call")].

Example readline_two_lines :
  readline ("ab" ++ nl ++ "cd") = ("ab" ++ nl, "cd")
  /\ readline "cd" = ("cd", "")
  /\ readline "" = ("", "")
  /\ split_lines ("ab" ++ nl ++ nl ++ "cd") = ["ab" ++ nl; nl; "cd"].
Proof. repeat split. Qed.

(** *** The claims on concrete inputs *)

(** A tools/list request with [id] 7: the response carries 7. *)
Lemma response_echoes_identifier_witness :
  lookup "id" list_request = Some (JInt 7)
  /\ exists r s',
       run_turn (Ok (JObj list_request)) = (Ok false, s')
       /\ stdin s' = ""
       /\ stdout s' = [r]
       /\ response_id r = Some (JInt 7).
Proof.
  split; [reflexivity |].
  apply (response_echoes_identifier stub_float_repr stub_str_repr stub_strip
           (stub_loads (Ok (JObj list_request))) stub_token unit api_ok
           (start one_line) one_line "" list_request (JInt 7));
    [reflexivity | discriminate | reflexivity | reflexivity].
Defined.

(** C1 fails as stated: a tools/call request with [id] 7 whose [params] is an
    array gets the internal error, and that response has no [id]. *)
Lemma internal_error_drops_identifier :
  lookup "id" positional_call = Some (JInt 7)
  /\ exists final r,
       run_main (Ok (JObj positional_call)) = Finished final
       /\ stdout final = [r]
       /\ error_code r = Some (JInt (-32603))
       /\ response_id r = None
       /\ response_id r <> Some (JInt 7).
Proof.
  split; [reflexivity |].
  eexists _, _. split; [reflexivity |]. simpl.
  split; [reflexivity |]. split; [reflexivity |]. split; [reflexivity | discriminate].
Qed.

(** A lookup answered with 401: one request, the lookup, and no deletion. *)
Lemma delete_aborts_when_lookup_fails_witness :
  exists r s',
    run_delete api_refusing (JObj [("name", JStr "demo")]) = (Ok r, s')
    /\ result_text r = Some "❌ Failed to get user info: 401"
    /\ is_error r = Some (JBool true)
    /\ calls s' = [GET user_url (headers stub_token)]
    /\ existsb is_delete [GET user_url (headers stub_token)] = false.
Proof.
  apply (delete_aborts_when_lookup_fails stub_float_repr stub_str_repr stub_token unit
           api_refusing [("name", JStr "demo")] (start "")
           (mkResponse 401 (Ok (JObj [("message", JStr "Bad credentials")]))) tt);
    [reflexivity | reflexivity | simpl; lia].
Defined.

(** C2 fails as stated: the text starts with the cross mark, so it is not
    "Failed to get user info: 401". *)
Lemma lookup_failure_text_has_prefix :
  exists r s',
    run_delete api_refusing (JObj [("name", JStr "demo")]) = (Ok r, s')
    /\ result_text r = Some "❌ Failed to get user info: 401"
    /\ result_text r <> Some "Failed to get user info: 401".
Proof.
  eexists _, _. split; [reflexivity |]. split; [reflexivity | discriminate].
Qed.

(** No [name] at all. *)
Lemma create_requires_name_witness :
  exists r,
    run_create api_ok (JObj [("private", JBool true)]) = (Ok r, start "")
    /\ result_text r = Some "Error: Repository name is required"
    /\ is_error r = Some (JBool true).
Proof.
  apply (create_requires_name stub_float_repr stub_str_repr stub_token unit api_ok
           [("private", JBool true)] (start "")).
  left. reflexivity.
Defined.

(** C3 fails as stated: the text is not "Repository name is required". *)
Lemma required_name_text_has_prefix :
  exists r,
    run_create api_ok (JObj [("name", JStr "")]) = (Ok r, start "")
    /\ result_text r = Some "Error: Repository name is required"
    /\ result_text r <> Some "Repository name is required".
Proof.
  eexists. split; [reflexivity |]. split; [reflexivity | discriminate].
Qed.

(** A call of a tool named rename_repository. *)
Lemma unknown_tool_is_protocol_error_witness :
  exists r message,
    run_dispatch (JObj rename_call) = (Ok r, start "")
    /\ error_code r = Some (JInt (-32601))
    /\ error_message r = Some (JStr message)
    /\ message = "Unknown tool: rename_repository"
    /\ contains "rename_repository" message
    /\ result_of r = None.
Proof.
  apply (unknown_tool_is_protocol_error stub_float_repr stub_str_repr stub_token unit
           api_ok rename_call
           [("name", JStr "rename_repository"); ("arguments", JObj [])]
           (JStr "rename_repository") (start ""));
    reflexivity.
Defined.

(** A creation answered with 201. *)
Lemma create_reports_urls_witness :
  exists r text,
    run_create api_ok (JObj [("name", JStr "demo")])
      = (Ok r, after_call (start "") tt
                 (creation_call stub_token [("name", JStr "demo")]))
    /\ result_text r = Some text
    /\ contains "https://github.com/octo/demo" text
    /\ contains "https://github.com/octo/demo.git" text
    /\ is_error r = None.
Proof.
  apply (create_reports_urls stub_float_repr stub_str_repr stub_token unit api_ok
           [("name", JStr "demo")] (start "") (mkResponse 201 (Ok created_body)) tt
           [("html_url", JStr "https://github.com/octo/demo");
            ("clone_url", JStr "https://github.com/octo/demo.git")]);
    reflexivity.
Defined.

(** A creation answered with 422 and a message. *)
Lemma create_failure_text_witness :
  exists r,
    run_create api_refusing (JObj [("name", JStr "demo")])
      = (Ok r, after_call (start "") tt
                 (creation_call stub_token [("name", JStr "demo")]))
    /\ is_error r = Some (JBool true)
    /\ result_text r =
         Some "❌ Failed to create repository: Repository creation failed. (Status: 422)".
Proof.
  apply (create_failure_text stub_float_repr stub_str_repr stub_token unit api_refusing
           [("name", JStr "demo")] (start "")
           (mkResponse 422 (Ok (JObj [("message", JStr "Repository creation failed.")])))
           tt);
    [reflexivity | reflexivity | simpl; lia].
Defined.

(** C6 fails as stated: a 502 whose body does not decode gives the text of the
    decoding exception, without "Unknown error" and without the status. *)
Lemma undecodable_body_gives_exception_text :
  exists r text,
    fst (run_create api_gateway (JObj [("name", JStr "demo")])) = Ok r
    /\ result_text r = Some text
    /\ text = "❌ Error creating repository: Expecting value: line 1 column 1 (char 0)"
    /\ ~ contains "Unknown error" text
    /\ ~ contains "(Status: 502)" text.
Proof.
  eexists _, _. split; [reflexivity |]. split; [reflexivity |]. split; [reflexivity |].
  split; intros H; apply contains_occurs in H; vm_compute in H; discriminate H.
Qed.


(** A [name] that is the number 0. *)
Lemma name_is_tested_by_truthiness_witness :
  truthy (JInt 0) = false
  /\ exists r,
       run_create api_ok (JObj [("name", JInt 0)]) = (Ok r, start "")
       /\ run_delete api_ok (JObj [("name", JInt 0)]) = (Ok r, start "")
       /\ r = name_required
       /\ is_error r = Some (JBool true).
Proof.
  split; [reflexivity |].
  apply (name_is_tested_by_truthiness stub_float_repr stub_str_repr stub_token unit
           api_ok [("name", JInt 0)] (start "")).
  reflexivity.
Defined.

(** A tools/call request with no [params]. *)
Lemma missing_name_is_unknown_tool_witness :
  run_dispatch (JObj bare_call)
    = (Ok (error_response (JInt 4) (-32601) "Unknown tool: None"), start "").
Proof.
  apply (proj1 (missing_name_is_unknown_tool stub_float_repr stub_str_repr stub_strip
                  (stub_loads no_body) stub_token unit api_ok) bare_call (start ""));
    [reflexivity | left; reflexivity].
Defined.

(** *** The further properties on concrete inputs *)

(** The API when the lookup gives an object without [login], when its body
    does not decode, when the repository is missing, and when nothing can be
    reached. *)
Definition api_no_login : http_call -> unit -> outcome http_response * unit :=
  stub_api (mkResponse 201 (Ok created_body))
           (mkResponse 200 (Ok (JObj [])))
           (mkResponse 204 no_body).

Definition api_garbled_lookup : http_call -> unit -> outcome http_response * unit :=
  stub_api (mkResponse 201 (Ok created_body))
           (mkResponse 200 no_body)
           (mkResponse 204 no_body).

Definition api_missing_repo : http_call -> unit -> outcome http_response * unit :=
  stub_api (mkResponse 201 (Ok created_body))
           (mkResponse 200 (Ok (JObj [("login", JStr "octo")])))
           (mkResponse 404 (Ok (JObj [("message", JStr "Not Found")]))).

Definition connection_failed : exn :=
  mkExn OtherException "All connection attempts failed".

Definition api_down : http_call -> unit -> outcome http_response * unit :=
  fun _ w => (Raise connection_failed, w).

Definition demo_args : list (string * json) := [("name", JStr "demo")].

Definition ping_request : list (string * json) :=
  [("jsonrpc", JStr "2.0"); ("id", JStr "a1"); ("method", JStr "ping")].

Definition create_call : list (string * json) :=
  [("jsonrpc", JStr "2.0"); ("id", JInt 9); ("method", JStr "tools/call");
   ("params", JObj [("name", JStr "create_github_repository");
                    ("arguments", JObj demo_args)])].

Lemma only_tool_calls_touch_the_state_witness :
  exists r,
    run_dispatch (JObj list_request) = (Ok r, start "")
    /\ response_id r = Some (JInt 7)
    /\ result_xor_error r.
Proof.
  apply (only_tool_calls_touch_the_state stub_float_repr stub_str_repr stub_token unit
           api_ok list_request (start "")).
  reflexivity.
Defined.

Lemma unknown_method_is_not_found_witness :
  exists r,
    run_dispatch (JObj ping_request) = (Ok r, start "")
    /\ error_code r = Some (JInt (-32601))
    /\ error_message r = Some (JStr "Method not found: ping")
    /\ result_of r = None.
Proof.
  apply (unknown_method_is_not_found stub_float_repr stub_str_repr stub_token unit
           api_ok ping_request (start ""));
    reflexivity.
Defined.

Lemma non_object_message_gets_internal_error_witness :
  exists r,
    r = anonymous_error (-32603) "Internal error: 'list' object has no attribute 'get'"
    /\ run_turn (Ok (JArr [JInt 1; JInt 2]))
         = (Ok false, printed (consumed (start one_line) "") r)
    /\ response_id r = None
    /\ run_main (Ok (JArr [JInt 1; JInt 2]))
         = main stub_float_repr stub_str_repr stub_strip
                (stub_loads (Ok (JArr [JInt 1; JInt 2]))) stub_token unit api_ok
                (printed (consumed (start one_line) "") r).
Proof.
  apply (non_object_message_gets_internal_error stub_float_repr stub_str_repr stub_strip
           (stub_loads (Ok (JArr [JInt 1; JInt 2]))) stub_token unit api_ok
           (start one_line) one_line "" (JArr [JInt 1; JInt 2]));
    [reflexivity | discriminate | reflexivity | reflexivity].
Defined.

Lemma registered_tool_always_gets_result_witness :
  exists r s' result,
    run_dispatch (JObj create_call) = (Ok r, s')
    /\ r = result_response (JInt 9) result
    /\ tool_result result
    /\ result_of r = Some result
    /\ error_of r = None.
Proof.
  apply (registered_tool_always_gets_result stub_float_repr stub_str_repr stub_token unit
           api_ok create_call
           [("name", JStr "create_github_repository"); ("arguments", JObj demo_args)]
           "create_github_repository" (start ""));
    [reflexivity | reflexivity | reflexivity | left; reflexivity].
Defined.

Lemma listed_tools_are_the_callable_ones_witness :
  exists r s', run_dispatch (JObj create_call) = (Ok r, s') /\ error_of r = None.
Proof.
  apply (proj1 (listed_tools_are_the_callable_ones stub_float_repr stub_str_repr
                  stub_token unit api_ok create_call
                  [("name", JStr "create_github_repository"); ("arguments", JObj demo_args)]
                  (JStr "create_github_repository") JNull (start "")
                  eq_refl eq_refl eq_refl)).
  left. reflexivity.
Defined.

Lemma create_success_needs_201_witness :
  exists args resp body,
    JObj demo_args = JObj args
    /\ api_ok (creation_call stub_token args) tt = (Ok resp, tt)
    /\ status_code resp = 201
    /\ response_json resp = Ok (JObj body)
    /\ calls (snd (run_create api_ok (JObj demo_args))) = [creation_call stub_token args].
Proof.
  apply (create_success_needs_201 stub_float_repr stub_str_repr stub_token unit api_ok
           (JObj demo_args) (start "")
           (tool_ok (created_text stub_float_repr stub_str_repr (JStr "demo")
                       (JStr "https://github.com/octo/demo")
                       (JStr "https://github.com/octo/demo.git")))
           (snd (run_create api_ok (JObj demo_args))));
    reflexivity.
Defined.

Lemma create_reports_transport_exception_witness :
  exists r s',
    run_create api_down (JObj demo_args) = (Ok r, s')
    /\ result_text r = Some "❌ Error creating repository: All connection attempts failed"
    /\ is_error r = Some (JBool true)
    /\ calls s' = [creation_call stub_token demo_args].
Proof.
  apply (create_reports_transport_exception stub_float_repr stub_str_repr stub_token unit
           api_down demo_args (start "") connection_failed tt);
    reflexivity.
Defined.

Lemma tools_reject_non_object_arguments_witness :
  exists text,
    text = "'str' object has no attribute 'get'"
    /\ run_create api_ok (JStr "demo")
         = (Ok (tool_error ("❌ Error creating repository: " ++ text)), start "")
    /\ run_delete api_ok (JStr "demo")
         = (Ok (tool_error ("❌ Error deleting repository: " ++ text)), start "").
Proof.
  apply (tools_reject_non_object_arguments stub_float_repr stub_str_repr stub_token unit
           api_ok (JStr "demo") (start "")).
  reflexivity.
Defined.

Lemma delete_reports_success_witness :
  exists r s',
    run_delete api_ok (JObj demo_args) = (Ok r, s')
    /\ result_text r = Some "✅ Successfully deleted GitHub repository 'demo'"
    /\ is_error r = None
    /\ world s' = tt
    /\ calls s' =
         [GET user_url (headers stub_token);
          DELETE "https://api.github.com/repos/octo/demo" (headers stub_token)].
Proof.
  apply (delete_reports_success stub_float_repr stub_str_repr stub_token unit api_ok
           demo_args (start "")
           (mkResponse 200 (Ok (JObj [("login", JStr "octo")]))) tt
           [("login", JStr "octo")] (mkResponse 204 no_body) tt);
    reflexivity.
Defined.

Lemma delete_success_needs_200_and_204_witness :
  exists args resp w body resp2,
    JObj demo_args = JObj args
    /\ api_ok (GET user_url (headers stub_token)) tt = (Ok resp, w)
    /\ status_code resp = 200
    /\ response_json resp = Ok (JObj body)
    /\ api_ok (deletion_call stub_float_repr stub_str_repr stub_token
                 (dict_get body "login" JNull) (dict_get args "name" JNull)) w
         = (Ok resp2, tt)
    /\ status_code resp2 = 204.
Proof.
  apply (delete_success_needs_200_and_204 stub_float_repr stub_str_repr stub_token unit
           api_ok (JObj demo_args) (start "")
           (tool_ok (deleted_text stub_float_repr stub_str_repr (JStr "demo")))
           (snd (run_delete api_ok (JObj demo_args))));
    reflexivity.
Defined.

Lemma delete_failure_text_witness :
  exists r s',
    run_delete api_missing_repo (JObj demo_args) = (Ok r, s')
    /\ is_error r = Some (JBool true)
    /\ result_text r = Some "❌ Failed to delete repository: Not Found (Status: 404)".
Proof.
  apply (delete_failure_text stub_float_repr stub_str_repr stub_token unit
           api_missing_repo demo_args (start "")
           (mkResponse 200 (Ok (JObj [("login", JStr "octo")]))) tt
           [("login", JStr "octo")]
           (mkResponse 404 (Ok (JObj [("message", JStr "Not Found")]))) tt);
    [reflexivity | reflexivity | reflexivity | reflexivity | reflexivity | simpl; lia].
Defined.

Lemma delete_without_login_uses_None_witness :
  exists r s',
    run_delete api_no_login (JObj demo_args) = (Ok r, s')
    /\ calls s' =
         [GET user_url (headers stub_token);
          DELETE "https://api.github.com/repos/None/demo" (headers stub_token)].
Proof.
  apply (delete_without_login_uses_None stub_float_repr stub_str_repr stub_token unit
           api_no_login demo_args (start "") (mkResponse 200 (Ok (JObj []))) tt []);
    reflexivity.
Defined.

Lemma delete_aborts_on_undecodable_lookup_witness :
  exists r s',
    run_delete api_garbled_lookup (JObj demo_args) = (Ok r, s')
    /\ is_error r = Some (JBool true)
    /\ result_text r =
         Some "❌ Error deleting repository: Expecting value: line 1 column 1 (char 0)"
    /\ calls s' = [GET user_url (headers stub_token)].
Proof.
  apply (delete_aborts_on_undecodable_lookup stub_float_repr stub_str_repr stub_token unit
           api_garbled_lookup demo_args (start "") (mkResponse 200 no_body) tt);
    [reflexivity | reflexivity | reflexivity | intros body; discriminate].
Defined.

Lemma delete_reports_transport_exception_witness :
  exists r s',
    run_delete api_down (JObj demo_args) = (Ok r, s')
    /\ result_text r = Some "❌ Error deleting repository: All connection attempts failed"
    /\ is_error r = Some (JBool true)
    /\ calls s' = [GET user_url (headers stub_token)].
Proof.
  apply (delete_reports_transport_exception stub_float_repr stub_str_repr stub_token unit
           api_down demo_args (start "") connection_failed tt);
    reflexivity.
Defined.

Lemma advertised_defaults_are_applied_witness :
  exists payload request_headers,
    creation_call stub_token demo_args = POST GITHUB_API_URL (JObj payload) request_headers
    /\ lookup "private" payload = Some (JBool false)
    /\ lookup "auto_init" payload = Some (JBool true).
Proof.
  apply (advertised_defaults_are_applied stub_token demo_args JNull); reflexivity.
Defined.

Lemma main_is_sequential_witness :
  complete one_line = true
  /\ exists mid,
       run_main (Ok (JObj list_request)) = Finished mid
       /\ stdin mid = ""
       /\ main stub_float_repr stub_str_repr stub_strip
               (stub_loads (Ok (JObj list_request))) stub_token unit api_ok
               (start (one_line ++ one_line))
          = main stub_float_repr stub_str_repr stub_strip
                 (stub_loads (Ok (JObj list_request))) stub_token unit api_ok
                 (consumed mid one_line).
Proof.
  split; [reflexivity |].
  apply (main_is_sequential stub_float_repr stub_str_repr stub_strip
           (stub_loads (Ok (JObj list_request))) stub_token unit api_ok
           (start "") one_line one_line).
  reflexivity.
Defined.

